(** * Chat gateway: the Socket.IO event handlers of [app/sockets.py]

    A shallow embedding of the handlers registered on [sio_server]
    ([connect], [disconnect], [joining_public_room], [joining_private_room],
    [leave_room], [send_public_message], [send_private_message],
    [upload_file]) together with [verify_token] and the process-wide
    [GlobalState].

    The handlers are written in a small state/exception/trace monad: the
    state is the presence registry, the external store and the upload
    directory; the trace records the calls made on the Socket.IO server
    ([emit], [enter_room], [leave_room], [disconnect]) in program order.
    [print] calls only write to the console and are left out.

    The REST side of [app/main.py] ([verify_token], [get_current_user]) is
    embedded in module [Main]. *)

From Stdlib Require Import ZArith String Ascii List Lia.
From stdpp Require Import base gmap strings list pretty.

Local Open Scope string_scope.
Local Open Scope list_scope.
Local Open Scope Z_scope.

Set Default Proof Using "Type".
Set Warnings "-register-all".

(** ** Python values carried by event payloads

    Socket.IO hands the handlers JSON values and binary attachments.
    Floating point numbers are not represented. *)

Inductive pyval : Type :=
| PNone
| PBool (b : bool)
| PInt (z : Z)
| PStr (s : string)
| PBytes (bs : list Byte.byte)
| PList (l : list pyval)
| PDict (d : gmap string pyval).

Abbreviation dict := (gmap string pyval).

(** [bool(v)]: the truth value Python gives [v] in [if v] and [not v]. *)
Definition truthy (v : pyval) : bool :=
  match v with
  | PNone => false
  | PBool b => b
  | PInt z => negb (Z.eqb z 0)
  | PStr s => negb (Nat.eqb (String.length s) 0)
  | PBytes bs => negb (Nat.eqb (List.length bs) 0)
  | PList l => negb (Nat.eqb (List.length l) 0)
  | PDict d => negb (Nat.eqb (size d) 0)
  end.

(** [v is None] *)
Definition is_none (v : pyval) : bool :=
  match v with PNone => true | _ => false end.

(** [isinstance(v, str)] *)
Definition isinstance_str (v : pyval) : bool :=
  match v with PStr _ => true | _ => false end.

(** [isinstance(v, dict)] *)
Definition isinstance_dict (v : pyval) : bool :=
  match v with PDict _ => true | _ => false end.

(** [d.get(k)]: [None] when the key is missing. *)
Definition dict_get (d : dict) (k : string) : pyval :=
  default PNone (d !! k).

(** ** Exceptions and server calls *)

Inductive exn : Type :=
| KeyError (key : string)
| AttributeError (attr : string)
| TypeError
| ValueError
| OSError.

(** The addressee of an [emit]: no [room]/[to] argument reaches every
    connection; [room=r] and [to=r] reach the connections in room [r]
    (a connection's own sid names the room holding only that connection). *)
Inductive target : Type :=
| ToAll
| ToRoom (room : pyval).

(** One call on [sio_server], or the assignment to the caller's [environ]. *)
Inductive action : Type :=
| Emit (event : string) (data : pyval) (tgt : target)
| EnterRoom (sid : string) (room : pyval)
| LeaveRoom (sid : string) (room : pyval)
| Disconnect (sid : string)
| EnvironSet (sid : string) (key : string) (value : pyval).

(** ** Records of the external store *)

Record UserInDB : Type := { user_id_of : string; user_email : string; user_name : string }.

Record PublicRoomInDB : Type := { public_room_id : string; public_members : list string }.

Record PrivateRoomInDB : Type := { private_room_id : string; private_members : list string }.

Record MessageInDB : Type :=
  { message_id : string;          (* [str(new_message.id)] *)
    message_room : pyval;
    message_sender : pyval;
    message_visibility : string;
    content : pyval }.

(** ** The collaborators outside [app/sockets.py]

    [jose.jwt], the [App.models] package, Python's string formatting and
    the file system are not part of the file; the handlers are parametrised
    over them.

    - [jwt_decode token] is [jwt.decode(token, settings.secret_key,
      algorithms=[settings.algorithm])]: [None] stands for a raised
      [JWTError], [Some payload] for the decoded claims.
    - [fetch_user_by_id], [fetch_public_room_by_id],
      [fetch_private_room_by_id], [check_user_in_private_room],
      [join_public_room] and [create_message] are coroutine functions: the
      handlers await their calls (for [fetch_user_by_id] at lines 119, 177
      and 221); the class gives the value obtained by awaiting, as a
      function of the store.
    - [check_user_in_public_room] is awaited nowhere in the file. Every
      other function of [App.models] that the file calls is a coroutine
      function, among them its private-room twin (awaited at line 126), so
      it is taken as one too: the class gives the value that awaiting it
      would give.
    - [py_str v] is [str(v)], the text an f-string puts for [{v}].
    - [fs_open path] is what opening [path] for appending does with the
      path text: [inr f] when it opens the file [f], creating it when it is
      missing, and [inl e] when it raises [e] (a directory of the path is
      missing, the path names a directory, ...). Path texts that name one
      file on disk give the same [f]. The handlers create and remove no
      directory, so the answer for a path does not change while they
      run. *)

Class External (Store : Type) : Type := {
  jwt_decode : pyval -> option dict;
  fetch_user_by_id : Store -> pyval -> option UserInDB;
  fetch_public_room_by_id : Store -> pyval -> option PublicRoomInDB;
  fetch_private_room_by_id : Store -> pyval -> option PrivateRoomInDB;
  check_user_in_public_room : Store -> pyval -> pyval -> bool;
  check_user_in_private_room : Store -> pyval -> pyval -> bool;
  join_public_room : Store -> string -> string -> bool * pyval * Store;
  create_message : Store -> pyval -> pyval -> string -> pyval -> MessageInDB * Store;
  py_str : pyval -> string;
  fs_open : string -> exn + string
}.

(** ** State, monad and primitives *)

Section Handlers.
Context {Store : Type} `{!External Store}.

(** [class GlobalState]: [all_clients] starts at 0 and
    [rooms_client_count] at the empty dict. *)
Record GlobalState : Type := {
  all_clients : Z;
  rooms_client_count : gmap string Z
}.

(** Everything a handler can read or change: the presence registry, the
    external store, and the files under [uploads/] keyed by path. *)
Record World : Type := {
  global_state : GlobalState;
  db : Store;
  uploads : gmap string (list Byte.byte)
}.

Inductive outcome (A : Type) : Type :=
| Ret (a : A)
| Raise (e : exn).
Global Arguments Ret {A} a.
Global Arguments Raise {A} e.

(** A handler body: from a world to its outcome, the world it leaves and
    the server calls it made, oldest first. *)
Definition M (A : Type) : Type := World -> outcome A * World * list action.

Definition M_ret {A} (a : A) : M A := fun w => (Ret a, w, []).

Definition M_bind {A B} (k : A -> M B) (m : M A) : M B :=
  fun w =>
    match m w with
    | (Ret a, w1, t1) =>
        match k a w1 with
        | (r, w2, t2) => (r, w2, t1 ++ t2)
        end
    | (Raise e, w1, t1) => (Raise e, w1, t1)
    end.

#[global] Instance M_mret : MRet M := @M_ret.
#[global] Instance M_mbind : MBind M := @M_bind.

Definition raise {A} (e : exn) : M A := fun w => (Raise e, w, []).

Definition tell (a : action) : M unit := fun w => (Ret tt, w, [a]).

Definition get_global : M GlobalState := fun w => (Ret (global_state w), w, []).

Definition put_global (g : GlobalState) : M unit :=
  fun w => (Ret tt, {| global_state := g; db := db w; uploads := uploads w |}, []).

(** [sio_server.emit(event, data, room=...)] *)
Definition emit (event : string) (data : pyval) (tgt : target) : M unit :=
  tell (Emit event data tgt).

(** A coroutine object: what calling a coroutine function yields. Its body
    runs against the store only when the object is awaited. *)
Inductive coroutine (A : Type) : Type :=
| Coroutine (body : Store -> A * Store).
Global Arguments Coroutine {A} body.

Definition await {A} (c : coroutine A) : M A :=
  fun w =>
    match c with
    | Coroutine body =>
        match body (db w) with
        | (a, st) => (Ret a, {| global_state := global_state w; db := st; uploads := uploads w |}, [])
        end
    end.

(** Read-only coroutine functions leave the store as it is. *)
Definition reading {A} (f : Store -> A) : coroutine A :=
  Coroutine (fun st => (f st, st)).

(** The calls into [App.models], as written at the call sites. *)
Definition user_model_fetch_user_by_id (user_id : pyval) : coroutine (option UserInDB) :=
  reading (fun st => fetch_user_by_id st user_id).

Definition public_room_fetch_public_room_by_id (room_id : pyval) : coroutine (option PublicRoomInDB) :=
  reading (fun st => fetch_public_room_by_id st room_id).

Definition private_room_fetch_private_room_by_id (room_id : pyval) : coroutine (option PrivateRoomInDB) :=
  reading (fun st => fetch_private_room_by_id st room_id).

Definition private_room_check_user_in_private_room (room_id user_id : pyval) : coroutine bool :=
  reading (fun st => check_user_in_private_room st room_id user_id).

Definition public_room_join_public_room (room_id user_id : string) : coroutine (bool * pyval) :=
  Coroutine (fun st => match join_public_room st room_id user_id with
                       | (joined, report, st') => ((joined, report), st')
                       end).

Definition message_model_create_message (room_id user_id : pyval) (visibility : string)
    (text : pyval) : coroutine MessageInDB :=
  Coroutine (fun st => create_message st room_id user_id visibility text).

Definition public_room_check_user_in_public_room (room_id user_id : pyval) : coroutine bool :=
  reading (fun st => check_user_in_public_room st room_id user_id).

(** [bool(c)] for a coroutine object [c], as [if c:] computes it: the object
    defines neither [__bool__] nor [__len__], so it counts as true, whatever
    awaiting it would give. *)
Definition coroutine_truthy {A} (c : coroutine A) : bool := true.

(** [data[k]]: raises [KeyError] when the key is missing. *)
Definition dict_item (d : dict) (k : string) : M pyval :=
  match d !! k with
  | Some v => mret v
  | None => raise (KeyError k)
  end.

(** [sio_server.disconnect], [enter_room], [leave_room] *)
Definition sio_disconnect (sid : string) : M unit := tell (Disconnect sid).
Definition sio_enter_room (sid : string) (room : pyval) : M unit := tell (EnterRoom sid room).
Definition sio_leave_room (sid : string) (room : pyval) : M unit := tell (LeaveRoom sid room).

(** [global_state.all_clients = n] *)
Definition set_all_clients (n : Z) : M unit :=
  g ← get_global;
  put_global {| all_clients := n; rooms_client_count := rooms_client_count g |}.

(** [global_state.rooms_client_count[room_id] = n] *)
Definition set_room_count (room_id : string) (n : Z) : M unit :=
  g ← get_global;
  put_global {| all_clients := all_clients g;
                rooms_client_count := <[room_id := n]> (rooms_client_count g) |}.

(** [global_state.rooms_client_count.get(room_id, 0)] *)
Definition room_count_get (room_id : string) : M Z :=
  g ← get_global; mret (default 0 (rooms_client_count g !! room_id)).

(** [global_state.rooms_client_count[room_id]] *)
Definition room_count_item (room_id : string) : M Z :=
  g ← get_global;
  match rooms_client_count g !! room_id with
  | Some n => mret n
  | None => raise (KeyError room_id)
  end.

(** ** [verify_token] and [connect] *)

(** What the name [user] in [connect] can be bound to. *)
Inductive pyobj : Type :=
| ObjNone
| ObjUser (u : UserInDB)
| ObjCoroutine (c : coroutine (option UserInDB)).

Definition obj_is_none (o : pyobj) : bool :=
  match o with ObjNone => true | _ => false end.

(** [o.id]: only a user record has the attribute. *)
Definition getattr_id (o : pyobj) : M pyval :=
  match o with
  | ObjUser u => mret (PStr (user_id_of u))
  | ObjNone => raise (AttributeError "id")
  | ObjCoroutine _ => raise (AttributeError "id")
  end.

(** [verify_token]: [jwt.decode] raising [JWTError] and a missing [sub]
    give [None]; otherwise the function returns what the call
    [user_model.fetch_user_by_id(user_id)] yields. That call is not
    awaited here (line 43), unlike in the three handlers below, so the
    value returned is the coroutine object itself. *)
Definition verify_token (token : pyval) : pyobj :=
  match jwt_decode token with
  | None => ObjNone
  | Some payload =>
      let user_id := dict_get payload "sub" in
      if is_none user_id then ObjNone
      else
        let user := ObjCoroutine (user_model_fetch_user_by_id user_id) in
        user
  end.

(** Lines 63 to 67 of [connect], run once [user] passed the test
    [user is None]: [environ['user_id'] = user.id], recorded in the trace,
    then the increment and the broadcast. *)
Definition register_client (sid : string) (user : pyobj) : M unit :=
  uid ← getattr_id user;
  tell (EnvironSet sid "user_id" uid);;
  g ← get_global;
  set_all_clients (all_clients g + 1);;
  g ← get_global;
  emit "client_count" (PInt (all_clients g)) ToAll.

(** [connect(sid, environ, auth)] *)
Definition connect (sid : string) (auth : dict) : M unit :=
  let token := dict_get auth "token" in
  if negb (truthy token) then sio_disconnect sid
  else
    let user := verify_token token in
    if obj_is_none user then sio_disconnect sid
    else register_client sid user.

Definition disconnect (sid : string) : M unit :=
  g ← get_global;
  set_all_clients (all_clients g - 1);;
  g ← get_global;
  emit "client_count" (PInt (all_clients g)) ToAll.

(** ** Rooms *)

(** The guard [not isinstance(room_id, str) or not isinstance(user_id, str)]
    is the last branch of the match. *)
Definition joining_public_room (sid : string) (data : dict) : M unit :=
  let room_id := dict_get data "room_id" in
  let user_id := dict_get data "user_id" in
  match room_id, user_id with
  | PStr r, PStr u =>
      '(room_joined, report) ← await (public_room_join_public_room r u);
      if room_joined : bool then
        sio_enter_room sid room_id;;
        n ← room_count_get r;
        set_room_count r (n + 1);;
        room_members ← room_count_item r;
        emit "room_count" (PInt room_members) (ToRoom room_id);;
        emit "user_joined" user_id (ToRoom room_id)
      else
        emit "error" report (ToRoom (PStr sid))
  | _, _ =>
      emit "error" (PStr "Invalid room_id or user_id") (ToRoom (PStr sid))
  end.

Definition joining_private_room (sid : string) (data : dict) : M unit :=
  room_id ← dict_item data "room_id";
  user_id ← dict_item data "user_id";
  room ← await (private_room_fetch_private_room_by_id room_id);
  match room with
  | None => emit "error" (PStr "Room not found") (ToRoom (PStr sid))
  | Some _ =>
      user ← await (user_model_fetch_user_by_id user_id);
      match user with
      | None => emit "error" (PStr "User not found") (ToRoom (PStr sid))
      | Some _ =>
          access ← await (private_room_check_user_in_private_room room_id user_id);
          if access : bool then
            sio_enter_room sid room_id;;
            emit "user_joined" user_id (ToRoom room_id)
          else
            emit "error" (PStr "Access denied") (ToRoom (PStr sid))
      end
  end.

Definition leave_room (sid : string) (data : dict) : M unit :=
  let room_id := dict_get data "room_id" in
  let user_id := dict_get data "user_id" in
  match room_id, user_id with
  | PStr r, PStr u =>
      sio_leave_room sid room_id;;
      n ← room_count_get r;
      set_room_count r (Z.max (n - 1) 0);;
      room_members ← room_count_item r;
      emit "room_count" (PInt room_members) (ToRoom room_id);;
      emit "user_left" user_id (ToRoom room_id)
  | _, _ =>
      emit "error" (PStr "Invalid room_id or user_id") (ToRoom (PStr sid))
  end.

(** ** Messages *)

Definition error_payload (text : string) : pyval :=
  PDict {[ "error" := PStr text ]}.

(** [send_public_message]: the call [public_room.check_user_in_public_room(
    room_id, user_id)] at line 186 is not awaited, so the [if] tests the
    coroutine object. *)
Definition send_public_message (sid : string) (data : dict) : M unit :=
  room_id ← dict_item data "room_id";
  message_sent ← dict_item data "message";
  user_id ← dict_item data "user_id";
  room ← await (public_room_fetch_public_room_by_id room_id);
  match room with
  | None => emit "error" (error_payload "Room not found") (ToRoom (PStr sid))
  | Some _ =>
      user ← await (user_model_fetch_user_by_id user_id);
      match user with
      | None => emit "error" (error_payload "User not found") (ToRoom (PStr sid))
      | Some _ =>
          let member := public_room_check_user_in_public_room room_id user_id in
          if coroutine_truthy member then
            new_message ← await (message_model_create_message room_id user_id "public" message_sent);
            emit "message"
              (PDict {[ "sid" := PStr sid;
                        "message" := content new_message;
                        "user_id" := user_id ]})
              (ToRoom room_id)
          else mret tt
      end
  end.

Definition send_private_message (sid : string) (data : dict) : M unit :=
  room_id ← dict_item data "room_id";
  user_id ← dict_item data "user_id";
  message_sent ← dict_item data "message";
  room ← await (private_room_fetch_private_room_by_id room_id);
  match room with
  | None => emit "error" (error_payload "Room not found") (ToRoom (PStr sid))
  | Some _ =>
      user ← await (user_model_fetch_user_by_id user_id);
      match user with
      | None => emit "error" (error_payload "Users not found") (ToRoom (PStr sid))
      | Some _ =>
          new_message ← await (message_model_create_message room_id user_id "private" message_sent);
          emit "message"
            (PDict {[ "sid" := PStr sid;
                      "message" := message_sent;
                      "message_id" := PStr (message_id new_message);
                      "user_id" := user_id ]})
            (ToRoom room_id)
      end
  end.

(** ** Chunked upload *)

(** [f"uploads/{upload_id}_{file_name}"] *)
Definition upload_path (upload_id file_name : pyval) : string :=
  "uploads/" +:+ py_str upload_id +:+ "_" +:+ py_str file_name.

(** The bytes stored in a file; a file that does not exist holds nothing.
    The files of a world are keyed by the file as [fs_open] names it. *)
Definition file_bytes (files : gmap string (list Byte.byte)) (file : string) : list Byte.byte :=
  default [] (files !! file).

(** [aiofiles.open(file_path, 'ab')]: raises what the file system raises
    for the path; otherwise gives the file the path names, created empty
    when it was missing and left as it is when it was there. *)
Definition open_append (path : string) : M string :=
  match fs_open path with
  | inl e => raise e
  | inr file =>
      fun w => (Ret file,
                {| global_state := global_state w; db := db w;
                   uploads := <[file := file_bytes (uploads w) file]> (uploads w) |},
                [])
  end.

(** [file.write(file_chunk)] on a file opened in binary append mode: only
    a bytes value can be written. The storage is taken not to run out. *)
Definition write_append (file : string) (chunk : pyval) : M unit :=
  match chunk with
  | PBytes bs =>
      fun w => (Ret tt,
                {| global_state := global_state w; db := db w;
                   uploads := <[file := file_bytes (uploads w) file ++ bs]> (uploads w) |},
                [])
  | _ => raise TypeError
  end.

Definition upload_file (sid : string) (data : dict) : M unit :=
  let room_id := dict_get data "room_id" in
  let user_id := dict_get data "user_id" in
  let file_info := dict_get data "file_info" in
  let file_chunk := dict_get data "file_chunk" in
  if negb (isinstance_str room_id) || negb (isinstance_str user_id) then
    emit "error" (PStr "Invalid room_id or user_id") (ToRoom (PStr sid))
  else
    match file_info with
    | PDict info =>
        if negb (truthy file_chunk) then
          emit "error" (PStr "Invalid file_info or file_chunk") (ToRoom (PStr sid))
        else
          let file_name := dict_get info "filename" in
          let file_size := dict_get info "file_size" in
          let upload_id := dict_get info "upload_id" in
          let file_path := upload_path upload_id file_name in
          file ← open_append file_path;
          write_append file file_chunk;;
          emit "file_uploaded"
            (PDict {[ "file_url" := PStr file_path; "filename" := file_name ]})
            (ToRoom room_id)
    | _ =>
        emit "error" (PStr "Invalid file_info or file_chunk") (ToRoom (PStr sid))
    end.

(** ** The server as a transition system *)

Inductive event : Type :=
| Connect (sid : string) (auth : dict)
| Disconnected (sid : string)
| JoiningPublicRoom (sid : string) (data : dict)
| JoiningPrivateRoom (sid : string) (data : dict)
| LeaveRoomEv (sid : string) (data : dict)
| SendPublicMessage (sid : string) (data : dict)
| SendPrivateMessage (sid : string) (data : dict)
| UploadFile (sid : string) (data : dict).

Definition handle (e : event) : M unit :=
  match e with
  | Connect sid auth => connect sid auth
  | Disconnected sid => disconnect sid
  | JoiningPublicRoom sid data => joining_public_room sid data
  | JoiningPrivateRoom sid data => joining_private_room sid data
  | LeaveRoomEv sid data => leave_room sid data
  | SendPublicMessage sid data => send_public_message sid data
  | SendPrivateMessage sid data => send_private_message sid data
  | UploadFile sid data => upload_file sid data
  end.

(** The world left by a handler, whether it returned or raised. *)
Definition world_after {A} (m : M A) (w : World) : World := snd (fst (m w)).

(** The server calls a handler made. *)
Definition trace_of {A} (m : M A) (w : World) : list action := snd (m w).

Definition result_of {A} (m : M A) (w : World) : outcome A := fst (fst (m w)).

(** Events are handled one at a time; an exception ends the handler that
    raised it and the server goes on with the world as that handler left
    it. *)
Fixpoint run (evs : list event) (w : World) : World :=
  match evs with
  | [] => w
  | e :: evs' => run evs' (world_after (handle e) w)
  end.

Fixpoint run_trace (evs : list event) (w : World) : list action :=
  match evs with
  | [] => []
  | e :: evs' => trace_of (handle e) w ++ run_trace evs' (world_after (handle e) w)
  end.

(** [rooms_client_count.get(R, 0)] read off a world. *)
Definition room_members_of (w : World) (room_id : string) : Z :=
  default 0 (rooms_client_count (global_state w) !! room_id).

Definition total_clients (w : World) : Z := all_clients (global_state w).

(** The process starts with no client, no room counter and no upload. *)
Definition initial_world (st : Store) : World :=
  {| global_state := {| all_clients := 0; rooms_client_count := ∅ |};
     db := st;
     uploads := ∅ |}.

(** ** Quantities the properties speak about *)

(** The world after a chunk [bs] was appended to [file]. *)
Definition with_chunk (w : World) (file : string) (bs : list Byte.byte) : World :=
  {| global_state := global_state w; db := db w;
     uploads := <[file := file_bytes (uploads w) file ++ bs]> (uploads w) |}.

(** A [joining_public_room] event for room [R] that the store accepts in
    world [w]: string ids, room [R], and [room_joined] true. *)
Definition join_counts (R : string) (e : event) (w : World) : bool :=
  match e with
  | JoiningPublicRoom _ data =>
      match dict_get data "room_id", dict_get data "user_id" with
      | PStr r, PStr u => bool_decide (r = R) && fst (fst (join_public_room (db w) r u))
      | _, _ => false
      end
  | _ => false
  end.

(** A [leave_room] event for room [R] that passes the check on its ids. *)
Definition leave_counts (R : string) (e : event) : bool :=
  match e with
  | LeaveRoomEv _ data =>
      match dict_get data "room_id", dict_get data "user_id" with
      | PStr r, PStr u => bool_decide (r = R)
      | _, _ => false
      end
  | _ => false
  end.

(** Number of successful joins of room [R] along a run from [w]. *)
Fixpoint successful_joins (R : string) (evs : list event) (w : World) : Z :=
  match evs with
  | [] => 0
  | e :: evs' =>
      (if join_counts R e w then 1 else 0)
      + successful_joins R evs' (world_after (handle e) w)
  end.

(** Number of leaves of room [R] in a sequence of events. *)
Fixpoint leaves (R : string) (evs : list event) : Z :=
  match evs with
  | [] => 0
  | e :: evs' => (if leave_counts R e then 1 else 0) + leaves R evs'
  end.

(** The event names of the [room_count] broadcasts. *)
Definition is_room_count (a : action) : bool :=
  match a with
  | Emit ev _ _ => String.eqb ev "room_count"
  | _ => false
  end.

(** The chunk an [upload_file] event gets written, with the file it goes
    to: string ids, a dict [file_info], a non-empty bytes chunk, and a path
    that can be opened. *)
Definition accepted_chunk (e : event) : option (string * list Byte.byte) :=
  match e with
  | UploadFile _ data =>
      match dict_get data "room_id", dict_get data "user_id",
            dict_get data "file_info", dict_get data "file_chunk" with
      | PStr _, PStr _, PDict info, PBytes (b :: bs) =>
          match fs_open (upload_path (dict_get info "upload_id") (dict_get info "filename")) with
          | inr file => Some (file, b :: bs)
          | inl _ => None
          end
      | _, _, _, _ => None
      end
  | _ => None
  end.

(** What the chunk of an event adds to [file]. *)
Definition written_to (file : string) (e : event) : list Byte.byte :=
  match accepted_chunk e with
  | Some (f, bs) => if bool_decide (f = file) then bs else []
  | None => []
  end.

(** The chunks written to [file] by a sequence of events, in arrival
    order. *)
Fixpoint chunks_for (file : string) (evs : list event) : list (list Byte.byte) :=
  match evs with
  | [] => []
  | e :: evs' =>
      match accepted_chunk e with
      | Some (f, bs) => if bool_decide (f = file) then bs :: chunks_for file evs'
                        else chunks_for file evs'
      | None => chunks_for file evs'
      end
  end.

(** The upload session an [upload_file] event belongs to, when its
    [upload_id] and [filename] are strings. *)
Definition upload_session (e : event) : option (string * string) :=
  match e with
  | UploadFile _ data =>
      match dict_get data "file_info" with
      | PDict info =>
          match dict_get info "upload_id", dict_get info "filename" with
          | PStr u, PStr f => Some (u, f)
          | _, _ => None
          end
      | _ => None
      end
  | _ => None
  end.

(** The accepted chunks of the session [(u, f)] in a sequence of events, in
    arrival order. *)
Fixpoint session_chunks (u f : string) (evs : list event) : list (list Byte.byte) :=
  match evs with
  | [] => []
  | e :: evs' =>
      match accepted_chunk e with
      | Some (_, bs) =>
          if bool_decide (upload_session e = Some (u, f))
          then bs :: session_chunks u f evs'
          else session_chunks u f evs'
      | None => session_chunks u f evs'
      end
  end.

(** The size the event declares for the whole file, when it is an integer. *)
Definition declared_size (e : event) : option Z :=
  match e with
  | UploadFile _ data =>
      match dict_get data "file_info" with
      | PDict info =>
          match dict_get info "file_size" with
          | PInt n => Some n
          | _ => None
          end
      | _ => None
      end
  | _ => None
  end.

(** The connection an event comes from. *)
Definition event_sid (e : event) : string :=
  match e with
  | Connect sid _ | Disconnected sid | JoiningPublicRoom sid _
  | JoiningPrivateRoom sid _ | LeaveRoomEv sid _ | SendPublicMessage sid _
  | SendPrivateMessage sid _ | UploadFile sid _ => sid
  end.

(** Number of disconnect events in a sequence. *)
Fixpoint disconnects (evs : list event) : Z :=
  match evs with
  | [] => 0
  | Disconnected _ :: evs' => 1 + disconnects evs'
  | _ :: evs' => disconnects evs'
  end.

(** The first of [keys], in the order given, that the payload lacks. *)
Fixpoint first_missing (data : dict) (keys : list string) : option string :=
  match keys with
  | [] => None
  | k :: keys' =>
      match data !! k with
      | None => Some k
      | Some _ => first_missing data keys'
      end
  end.

(** The counters of all rooms are at least zero. *)
Definition counters_nonneg (w : World) : Prop := forall R, 0 <= room_members_of w R.

(** The world with another store and everything else as in [w]. *)
Definition with_db (w : World) (st : Store) : World :=
  {| global_state := global_state w; db := st; uploads := uploads w |}.

End Handlers.

Global Arguments World Store : clear implicits.
Global Arguments M Store A : clear implicits.
Global Arguments coroutine Store A : clear implicits.
Global Arguments pyobj Store : clear implicits.

(** ** An in-memory store

    The handlers are run on concrete inputs against the instance of
    [External] built here; the properties further down are proved for every
    instance. *)

(** Modelled from the spec: the user, room and message stores live outside
    [app/sockets.py] (package [App.models]). The spec gives their
    interface: [findByID(userID) → User | None], [findPublicByID],
    [findPrivateByID], [isMember(roomID, userID) → bool],
    [addMember(roomID, userID)] and [create(roomID, senderID, visibility,
    text) → Message], which assigns an identifier. The store keeps users and
    rooms in finite maps and messages in creation order. *)
Record MemStore : Type := {
  users : gmap string UserInDB;
  public_rooms : gmap string PublicRoomInDB;
  private_rooms : gmap string PrivateRoomInDB;
  messages : list MessageInDB
}.

(** Modelled from the spec: the [findByID] lookups of the stores; only a
    string can name a record. *)
Definition by_id {A} (m : gmap string A) (key : pyval) : option A :=
  match key with
  | PStr k => m !! k
  | _ => None
  end.

(** Modelled from the spec: [isMember(roomID, userID)], the membership
    predicate of a room, over its member or access list. *)
Definition mem_is_member (members : list string) (user_id : pyval) : bool :=
  match user_id with
  | PStr u => bool_decide (u ∈ members)
  | _ => false
  end.

Definition mem_check_public (st : MemStore) (room_id user_id : pyval) : bool :=
  match by_id (public_rooms st) room_id with
  | Some room => mem_is_member (public_members room) user_id
  | None => false
  end.

Definition mem_check_private (st : MemStore) (room_id user_id : pyval) : bool :=
  match by_id (private_rooms st) room_id with
  | Some room => mem_is_member (private_members room) user_id
  | None => false
  end.

(** Modelled from the spec: [join_public_room] is missing from the sources;
    by the spec a public join always succeeds if the room exists, records
    membership in the room store and reports acceptance, and fails with a
    reason string if the room does not exist. *)
Definition mem_join_public (st : MemStore) (room_id user_id : string) : bool * pyval * MemStore :=
  match public_rooms st !! room_id with
  | Some room =>
      let room' := {| public_room_id := public_room_id room;
                      public_members := public_members room ++ [user_id] |} in
      (true, PStr "Joined room",
       {| users := users st;
          public_rooms := <[room_id := room']> (public_rooms st);
          private_rooms := private_rooms st;
          messages := messages st |})
  | None => (false, PStr "Room not found", st)
  end.

(** Modelled from the spec: [create_message] is missing from the sources;
    by the spec it persists the message and gives it a server-generated
    identifier (here its position in the store). *)
Definition mem_create_message (st : MemStore) (room_id user_id : pyval)
    (visibility : string) (text : pyval) : MessageInDB * MemStore :=
  let m := {| message_id := pretty (List.length (messages st));
              message_room := room_id;
              message_sender := user_id;
              message_visibility := visibility;
              content := text |} in
  (m, {| users := users st;
         public_rooms := public_rooms st;
         private_rooms := private_rooms st;
         messages := messages st ++ [m] |}).

(** Modelled from the spec: [jwt.decode] and the secret are outside the
    sources; by the spec a token either fails to validate or yields claims
    that may carry a subject. Here the text ["token:" ++ s] carries the
    subject [s], ["token-without-sub"] decodes to claims with no subject,
    and everything else fails to decode. *)
Definition mem_jwt_decode (token : pyval) : option dict :=
  match token with
  | PStr t =>
      if String.prefix "token:" t
      then Some {[ "sub" := PStr (String.substring 6 (String.length t - 6) t) ]}
      else if String.eqb t "token-without-sub" then Some ∅
      else None
  | _ => None
  end.

(** [str(v)] as Python gives it for [None], booleans, integers and
    strings; the [repr] of bytes and containers is not reproduced, a
    placeholder stands for it. *)
Definition mem_py_str (v : pyval) : string :=
  match v with
  | PNone => "None"
  | PBool true => "True"
  | PBool false => "False"
  | PInt z => pretty z
  | PStr s => s
  | PBytes _ => "<bytes>"
  | PList _ => "<list>"
  | PDict _ => "<dict>"
  end.

(** A file system to run the handlers on: the working directory is the root
    and holds the single directory [uploads], which has no subdirectory.
    A path is walked segment by segment; empty segments and [.] stay where
    they are, [..] goes up (staying at the root when already there), and
    any other name that is not [uploads] at the root leads nowhere. Names
    have no length limit. *)
Fixpoint path_segments (path : string) : list string :=
  match path with
  | EmptyString => [EmptyString]
  | String c rest =>
      if Ascii.eqb c "/"%char then EmptyString :: path_segments rest
      else
        match path_segments rest with
        | seg :: segs => String c seg :: segs
        | [] => [String c EmptyString]
        end
  end.

Inductive mem_dir : Type := AtRoot | AtUploads | Nowhere.

Definition mem_walk (d : mem_dir) (seg : string) : mem_dir :=
  match d with
  | AtRoot =>
      if String.eqb seg "" || String.eqb seg "." || String.eqb seg ".." then AtRoot
      else if String.eqb seg "uploads" then AtUploads
      else Nowhere
  | AtUploads =>
      if String.eqb seg "" || String.eqb seg "." then AtUploads
      else if String.eqb seg ".." then AtRoot
      else Nowhere
  | Nowhere => Nowhere
  end.

Fixpoint has_nul (s : string) : bool :=
  match s with
  | EmptyString => false
  | String c rest => Ascii.eqb c Ascii.zero || has_nul rest
  end.

(** Opening a path for appending in that file system: a path with a NUL
    character raises [ValueError]; a path whose directory part leads
    nowhere, or whose last segment is empty or names a directory, raises
    [OSError]; otherwise the file is named by its directory and name. *)
Definition mem_fs_open (path : string) : exn + string :=
  if has_nul path then inl ValueError
  else
    let segs := path_segments path in
    let name := List.last segs EmptyString in
    if String.eqb name "" || String.eqb name "." || String.eqb name ".." then inl OSError
    else
      match foldl mem_walk AtRoot (List.removelast segs) with
      | AtRoot => if String.eqb name "uploads" then inl OSError else inr name
      | AtUploads => inr ("uploads/" +:+ name)
      | Nowhere => inl OSError
      end.

#[global] Instance MemExternal : External MemStore := {|
  jwt_decode := mem_jwt_decode;
  fetch_user_by_id st := by_id (users st);
  fetch_public_room_by_id st := by_id (public_rooms st);
  fetch_private_room_by_id st := by_id (private_rooms st);
  check_user_in_public_room := mem_check_public;
  check_user_in_private_room := mem_check_private;
  join_public_room := mem_join_public;
  create_message := mem_create_message;
  py_str := mem_py_str;
  fs_open := mem_fs_open
|}.

(** A store with two users, the public room ["lobby"] and the private room
    ["board"], whose access list holds only ["alice"]. *)
Definition alice : UserInDB :=
  {| user_id_of := "alice"; user_email := "alice@example.org"; user_name := "Alice" |}.

Definition bob : UserInDB :=
  {| user_id_of := "bob"; user_email := "bob@example.org"; user_name := "Bob" |}.

Definition demo_store : MemStore :=
  {| users := {[ "alice" := alice; "bob" := bob ]};
     public_rooms := {[ "lobby" := {| public_room_id := "lobby"; public_members := [] |} ]};
     private_rooms := {[ "board" := {| private_room_id := "board"; private_members := ["alice"] |} ]};
     messages := [] |}.

Definition room_event (room_id user_id : string) : dict :=
  {[ "room_id" := PStr room_id; "user_id" := PStr user_id ]}.

Definition message_event (room_id user_id text : string) : dict :=
  {[ "room_id" := PStr room_id; "user_id" := PStr user_id; "message" := PStr text ]}.

Definition upload_event (room_id user_id upload_id filename : string) (size : Z)
    (chunk : pyval) : dict :=
  {[ "room_id" := PStr room_id;
     "user_id" := PStr user_id;
     "file_info" := PDict {[ "filename" := PStr filename;
                             "file_size" := PInt size;
                             "upload_id" := PStr upload_id ]};
     "file_chunk" := chunk ]}.

Definition demo_world : World MemStore := initial_world demo_store.

(** ** The REST side: [app/main.py]

    [main.py] has its own [verify_token], which takes the exception to
    raise from its caller, and the dependency [get_current_user]. What they
    use from outside the file is taken as parameters: [jwt.decode] with the
    key and algorithm of [app.config] ([None] for a raised [JWTError]), the
    constructor [TokenDataSchema(email=...)], which [app/schemas] does not
    define here ([None] when its validation raises), and the coroutine
    function [get_user_by_email] of [app.crud], which is awaited. *)

Module Main.

(** [HTTPException(status_code=..., detail=..., headers=...)] *)
Record HTTPException : Type := {
  status_code : Z;
  detail : string;
  headers : list (string * string)
}.

(** A validated [TokenDataSchema]; only its [email] field is read. *)
Record TokenDataSchema : Type := { email : pyval }.

(** What the two functions can raise: the exception supplied by the caller,
    or the error of the schema's validation. *)
Inductive raised (E : Type) : Type :=
| Supplied (e : E)
| ValidationError.
Global Arguments Supplied {E} e.
Global Arguments ValidationError {E}.

Section Rest.
Context {Db User : Type}.
Variable jwt_decode : pyval -> option dict.
Variable token_data_schema : pyval -> option TokenDataSchema.
Variable get_user_by_email : Db -> pyval -> option User.

(** [verify_token(token, credentials_exception)]: the [raise] under
    [if email is None] is not a [JWTError], so it leaves the [try] as it
    is; [except JWTError] turns a failed decode into the same exception. *)
Definition verify_token {E} (token : pyval) (credentials_exception : E)
    : raised E + TokenDataSchema :=
  match jwt_decode token with
  | None => inl (Supplied credentials_exception)
  | Some payload =>
      let email := dict_get payload "sub" in
      if is_none email then inl (Supplied credentials_exception)
      else
        match token_data_schema email with
        | Some token_data => inr token_data
        | None => inl ValidationError
        end
  end.

(** The exception built at the top of [get_current_user]. *)
Definition credentials_exception : HTTPException :=
  {| status_code := 401;
     detail := "Could not validate credentials";
     headers := [("WWW-Authenticate", "Bearer")] |}.

(** [get_current_user(token, db)] *)
Definition get_current_user (token : pyval) (db : Db) : raised HTTPException + User :=
  match verify_token token credentials_exception with
  | inl exc => inl exc
  | inr token_data =>
      match get_user_by_email db (email token_data) with
      | None => inl (Supplied credentials_exception)
      | Some user => inr user
      end
  end.
End Rest.

(** [read_root()] *)
Definition read_root : dict := {[ "Hello" := PStr "World" ]}.

End Main.

(** Users of the REST side keyed by e-mail address, for running
    [Main.get_current_user]; the schema accepts every subject. *)
Definition demo_users_by_email : gmap string UserInDB :=
  {[ "alice@example.org" := alice; "bob@example.org" := bob ]}.

Definition accept_any_email (v : pyval) : option Main.TokenDataSchema :=
  Some {| Main.email := v |}.

(** * Properties *)

Section Properties.
Context {Store : Type} `{!External Store}.
Implicit Types (w : World Store) (sid : string) (data : dict).

(** Rebuilding a world from its own fields gives it back. *)
Lemma world_eta w :
  {| global_state := global_state w; db := db w; uploads := uploads w |} = w.
Proof. by destruct w. Qed.

Lemma dict_item_Some data k v w :
  data !! k = Some v -> dict_item data k w = (Ret v, w, []).
Proof. intros Hk. unfold dict_item. by rewrite Hk. Qed.

Lemma dict_item_None data k w :
  data !! k = None -> dict_item data k w = (Raise (KeyError k), w, []).
Proof. intros Hk. unfold dict_item. by rewrite Hk. Qed.

(** C8: [disconnect] subtracts one from [all_clients] and broadcasts the
    new total as [client_count] to every connection; it returns normally,
    the broadcast is its only server call (no room is left or entered and
    no room-scoped event is sent), and [rooms_client_count], the store and
    the uploads are as before. *)
Theorem disconnect_only_touches_total sid w :
  let w' := world_after (disconnect sid) w in
  result_of (disconnect sid) w = Ret tt /\
  total_clients w' = total_clients w - 1 /\
  trace_of (disconnect sid) w = [Emit "client_count" (PInt (total_clients w')) ToAll] /\
  rooms_client_count (global_state w') = rooms_client_count (global_state w) /\
  db w' = db w /\
  uploads w' = uploads w.
Proof. by destruct w as [[n rooms] st files]. Qed.

(** Unfolds the monad and the server primitives in the goal. *)
Ltac unfold_m :=
  cbv [mbind mret M_mbind M_mret M_bind M_ret emit tell raise await reading
       get_global put_global set_all_clients set_room_count room_count_get
       room_count_item sio_disconnect sio_enter_room sio_leave_room
       user_model_fetch_user_by_id public_room_fetch_public_room_by_id
       private_room_fetch_private_room_by_id
       private_room_check_user_in_private_room public_room_join_public_room
       message_model_create_message public_room_check_user_in_public_room
       coroutine_truthy
       world_after trace_of result_of].

(** C4: [joining_private_room] on a payload carrying [room_id] and
    [user_id] checks, in this order, that the room exists, that the user
    exists, and that the user is on the room's access list. The first
    check that fails sends its own error text to the sender and changes
    nothing: "Room not found", then "User not found", then "Access
    denied". When the three checks pass the connection enters the room and
    [user_joined] goes to the room; the room is entered in no other case. *)
Theorem joining_private_room_checks sid data room_id user_id w :
  data !! "room_id" = Some room_id ->
  data !! "user_id" = Some user_id ->
  let out := joining_private_room sid data w in
  let refused text := (Ret tt, w, [Emit "error" (PStr text) (ToRoom (PStr sid))]) in
  let room := fetch_private_room_by_id (db w) room_id in
  let user := fetch_user_by_id (db w) user_id in
  let access := check_user_in_private_room (db w) room_id user_id in
  (room = None -> out = refused "Room not found") /\
  (is_Some room -> user = None -> out = refused "User not found") /\
  (is_Some room -> is_Some user -> access = false -> out = refused "Access denied") /\
  (is_Some room -> is_Some user -> access = true ->
     out = (Ret tt, w, [EnterRoom sid room_id; Emit "user_joined" user_id (ToRoom room_id)])) /\
  (forall s r, In (EnterRoom s r) (snd out) ->
     is_Some room /\ is_Some user /\ access = true).
Proof.
  intros Hroom Huser out refused room user access.
  assert (Hout : out =
    match room with
    | None => refused "Room not found"
    | Some _ =>
        match user with
        | None => refused "User not found"
        | Some _ =>
            if access
            then (Ret tt, w, [EnterRoom sid room_id; Emit "user_joined" user_id (ToRoom room_id)])
            else refused "Access denied"
        end
    end).
  { subst out refused room user access. unfold joining_private_room.
    unfold_m. rewrite !dict_item_Some with (1 := Hroom).
    rewrite !dict_item_Some with (1 := Huser). cbn.
    destruct (fetch_private_room_by_id (db w) room_id); cbn; rewrite ?world_eta; [|done].
    destruct (fetch_user_by_id (db w) user_id); cbn; rewrite ?world_eta; [|done].
    destruct (check_user_in_private_room (db w) room_id user_id); cbn;
      by rewrite ?world_eta. }
  rewrite Hout. clear Hout. repeat split.
  - by intros ->.
  - by intros [? ->] ->.
  - by intros [? ->] [? ->] ->.
  - by intros [? ->] [? ->] ->.
  - revert H. destruct room; [|cbn; intros [?|[]]; done]. eauto.
  - revert H. destruct room; [|cbn; intros [?|[]]; done].
    destruct user; [|cbn; intros [?|[]]; done]. eauto.
  - revert H. destruct room; [|cbn; intros [?|[]]; done].
    destruct user; [|cbn; intros [?|[]]; done].
    destruct access; [done|cbn; intros [?|[]]; done].
Qed.

(** A payload without [room_id] makes [joining_private_room] raise
    [KeyError] before any lookup or server call. *)
Lemma joining_private_room_missing_room_id sid data w :
  data !! "room_id" = None ->
  joining_private_room sid data w = (Raise (KeyError "room_id"), w, []).
Proof.
  intros Hk. unfold joining_private_room. unfold_m.
  by rewrite dict_item_None with (1 := Hk).
Qed.

(** Once the public room and the sender are found, [send_public_message]
    stores the message and sends it to the room: the test on the coroutine
    object of the membership check always passes, whatever awaiting the
    check would answer. *)
Lemma send_public_message_found sid data room_id text user_id w :
  data !! "room_id" = Some room_id ->
  data !! "message" = Some text ->
  data !! "user_id" = Some user_id ->
  is_Some (fetch_public_room_by_id (db w) room_id) ->
  is_Some (fetch_user_by_id (db w) user_id) ->
  let stored := create_message (db w) room_id user_id "public" text in
  send_public_message sid data w =
    (Ret tt,
     {| global_state := global_state w; db := snd stored; uploads := uploads w |},
     [Emit "message"
        (PDict {[ "sid" := PStr sid;
                  "message" := content (fst stored);
                  "user_id" := user_id ]})
        (ToRoom room_id)]).
Proof.
  intros Hroom Htext Huser [room Hr] [user Hu].
  unfold send_public_message. unfold_m.
  rewrite !dict_item_Some with (1 := Hroom).
  rewrite !dict_item_Some with (1 := Htext).
  rewrite !dict_item_Some with (1 := Huser). cbn.
  rewrite Hr. cbn. rewrite Hu. cbn.
  by destruct (create_message (db w) room_id user_id "public" text).
Qed.


(** C5: when the private room and the sender both exist,
    [send_private_message] stores the message (the store becomes the one
    [create_message] returns for this room, sender, visibility "private"
    and text) and sends one [message] event to the room, carrying the
    sender's sid, the text, the new message's identifier and the sender;
    this holds for either answer of the room's access list about the
    sender, which the handler never consults. *)
Theorem send_private_message_unconditional sid data room_id user_id text w (access : bool) :
  data !! "room_id" = Some room_id ->
  data !! "user_id" = Some user_id ->
  data !! "message" = Some text ->
  is_Some (fetch_private_room_by_id (db w) room_id) ->
  is_Some (fetch_user_by_id (db w) user_id) ->
  check_user_in_private_room (db w) room_id user_id = access ->
  let stored := create_message (db w) room_id user_id "private" text in
  send_private_message sid data w =
    (Ret tt,
     {| global_state := global_state w; db := snd stored; uploads := uploads w |},
     [Emit "message"
        (PDict {[ "sid" := PStr sid;
                  "message" := text;
                  "message_id" := PStr (message_id (fst stored));
                  "user_id" := user_id ]})
        (ToRoom room_id)]).
Proof.
  intros Hroom Huser Htext [room Hr] [user Hu] _.
  unfold send_private_message. unfold_m.
  rewrite !dict_item_Some with (1 := Hroom).
  rewrite !dict_item_Some with (1 := Huser).
  rewrite !dict_item_Some with (1 := Htext). cbn.
  rewrite Hr. cbn. rewrite Hu. cbn.
  by destruct (create_message (db w) room_id user_id "private" text).
Qed.

(** C9, as amended: an [upload_file] event whose [room_id] or [user_id] is
    not a string, whose [file_info] is not a dict, or whose [file_chunk] is
    missing or empty only sends one [error] event to the sender and leaves
    the world (registry, store, files) as it was. An event with string
    ids, a dict [file_info] and a non-empty bytes chunk whose path
    [uploads/{upload_id}_{filename}] can be opened appends the chunk to the
    file that path names, which starts empty when it did not exist, and
    sends [file_uploaded] with the path and the file name to the room; this
    happens for each such event. When the path cannot be opened the handler
    raises the error of the file system, writes nothing and sends
    nothing. *)
Theorem upload_file_validation sid data w :
  let room_id := dict_get data "room_id" in
  let user_id := dict_get data "user_id" in
  let file_info := dict_get data "file_info" in
  let file_chunk := dict_get data "file_chunk" in
  (isinstance_str room_id = false \/ isinstance_str user_id = false \/
   isinstance_dict file_info = false \/ truthy file_chunk = false ->
     let text := if isinstance_str room_id && isinstance_str user_id
                 then "Invalid file_info or file_chunk"
                 else "Invalid room_id or user_id" in
     upload_file sid data w =
       (Ret tt, w, [Emit "error" (PStr text) (ToRoom (PStr sid))])) /\
  (forall info bs,
     isinstance_str room_id = true -> isinstance_str user_id = true ->
     file_info = PDict info -> file_chunk = PBytes bs -> bs <> [] ->
     let file_name := dict_get info "filename" in
     let file_path := upload_path (dict_get info "upload_id") file_name in
     (forall file, fs_open file_path = inr file ->
        upload_file sid data w =
          (Ret tt, with_chunk w file bs,
           [Emit "file_uploaded"
              (PDict {[ "file_url" := PStr file_path; "filename" := file_name ]})
              (ToRoom room_id)]) /\
        (uploads w !! file = None ->
           uploads (with_chunk w file bs) !! file = Some bs)) /\
     (forall e, fs_open file_path = inl e ->
        upload_file sid data w = (Raise e, w, []))).
Proof.
  intros room_id user_id file_info file_chunk. split.
  - intros Hbad text. subst text.
    unfold upload_file. fold room_id user_id file_info file_chunk.
    destruct (isinstance_str room_id) eqn:Hr; [|done].
    destruct (isinstance_str user_id) eqn:Hu; [|done].
    cbn [negb orb andb].
    destruct file_info as [| | | | | |info] eqn:Hinfo; try done.
    destruct (truthy file_chunk) eqn:Hc; [|done].
    by destruct Hbad as [?|[?|[?|?]]].
  - intros info bs Hr Hu Hinfo Hchunk Hbs file_name file_path.
    assert (Hrun : upload_file sid data w =
      M_bind (fun file => M_bind (fun _ =>
                emit "file_uploaded"
                  (PDict {[ "file_url" := PStr file_path; "filename" := file_name ]})
                  (ToRoom room_id))
                (write_append file (PBytes bs)))
             (open_append file_path) w).
    { unfold upload_file. fold room_id user_id file_info file_chunk.
      rewrite Hr, Hu, Hinfo, Hchunk. cbn [negb orb].
      by assert (truthy (PBytes bs) = true) as -> by by destruct bs. }
    rewrite Hrun. unfold M_bind, open_append. split.
    + intros file Hopen. rewrite Hopen. split.
      * unfold_m. unfold write_append, with_chunk. cbn.
        f_equal. f_equal. f_equal.
        unfold file_bytes at 1. rewrite lookup_insert_eq. cbn.
        by rewrite insert_insert_eq.
      * intros Hnew. unfold with_chunk. cbn.
        rewrite lookup_insert_eq. unfold file_bytes. by rewrite Hnew.
    + intros e Hopen. by rewrite Hopen.
Qed.

(** ** What each handler does to the presence registry *)

(** Runs a handler symbolically: unfolds it and splits on every test. *)
Ltac by_cases :=
  unfold dict_item; unfold_m; cbn;
  repeat (case_match; cbn in *; simplify_eq; try done).

Lemma joining_private_room_registry sid data w :
  global_state (world_after (joining_private_room sid data) w) = global_state w.
Proof. unfold joining_private_room. by_cases. Qed.

Lemma joining_private_room_no_room_count sid data w :
  Forall (fun a => is_room_count a = false) (trace_of (joining_private_room sid data) w).
Proof. unfold joining_private_room. by_cases; repeat constructor. Qed.

Lemma send_public_message_registry sid data w :
  global_state (world_after (send_public_message sid data) w) = global_state w.
Proof. unfold send_public_message. by_cases. Qed.

Lemma send_private_message_registry sid data w :
  global_state (world_after (send_private_message sid data) w) = global_state w.
Proof. unfold send_private_message. by_cases. Qed.

Lemma upload_file_registry sid data w :
  global_state (world_after (upload_file sid data) w) = global_state w.
Proof. unfold upload_file, open_append, write_append. by_cases. Qed.

Lemma connect_rooms sid auth w :
  rooms_client_count (global_state (world_after (connect sid auth) w))
  = rooms_client_count (global_state w).
Proof. unfold connect, register_client, getattr_id. by_cases. Qed.

Lemma disconnect_rooms sid w :
  rooms_client_count (global_state (world_after (disconnect sid) w))
  = rooms_client_count (global_state w).
Proof. done. Qed.

(** A successful public join, in full. *)
Lemma joining_public_room_accepted sid data r u report st w :
  dict_get data "room_id" = PStr r ->
  dict_get data "user_id" = PStr u ->
  join_public_room (db w) r u = (true, report, st) ->
  let n := room_members_of w r + 1 in
  joining_public_room sid data w =
    (Ret tt,
     {| global_state :=
          {| all_clients := total_clients w;
             rooms_client_count := <[r := n]> (rooms_client_count (global_state w)) |};
        db := st; uploads := uploads w |},
     [EnterRoom sid (PStr r);
      Emit "room_count" (PInt n) (ToRoom (PStr r));
      Emit "user_joined" (PStr u) (ToRoom (PStr r))]).
Proof.
  intros Hr Hu Hjoin n. unfold joining_public_room. rewrite Hr, Hu.
  unfold_m. cbn. rewrite Hjoin. cbn. by rewrite lookup_insert_eq.
Qed.

Lemma joining_public_room_members sid data w R :
  room_members_of (world_after (joining_public_room sid data) w) R =
    if join_counts R (JoiningPublicRoom sid data) w
    then room_members_of w R + 1
    else room_members_of w R.
Proof.
  unfold joining_public_room, join_counts.
  destruct (dict_get data "room_id") as [| | |r| | |]; try done.
  destruct (dict_get data "user_id") as [| | |u| | |]; try done.
  unfold_m. cbn.
  destruct (join_public_room (db w) r u) as [[joined report] st]. cbn.
  destruct joined; cbn; [|by rewrite andb_false_r].
  rewrite lookup_insert_eq, andb_true_r. cbn. unfold room_members_of. cbn.
  case_bool_decide as HR.
  - subst R. by rewrite lookup_insert_eq.
  - by rewrite lookup_insert_ne.
Qed.

Lemma leave_room_members sid data w R :
  room_members_of (world_after (leave_room sid data) w) R =
    if leave_counts R (LeaveRoomEv sid data)
    then Z.max (room_members_of w R - 1) 0
    else room_members_of w R.
Proof.
  unfold leave_room, leave_counts.
  destruct (dict_get data "room_id") as [| | |r| | |]; try done.
  destruct (dict_get data "user_id") as [| | |u| | |]; try done.
  unfold_m. cbn. rewrite lookup_insert_eq. cbn. unfold room_members_of. cbn.
  case_bool_decide as HR.
  - subst R. by rewrite lookup_insert_eq.
  - by rewrite lookup_insert_ne.
Qed.

(** One event moves the counter of [R] by a counted join, by a counted
    leave clamped at zero, or not at all. *)
Lemma handle_room_members (e : event) w R :
  room_members_of (world_after (handle e) w) R =
    if join_counts R e w then room_members_of w R + 1
    else if leave_counts R e then Z.max (room_members_of w R - 1) 0
    else room_members_of w R.
Proof.
  destruct e as [sid auth|sid|sid data|sid data|sid data|sid data|sid data|sid data];
    cbn [handle].
  - unfold room_members_of. by rewrite connect_rooms.
  - done.
  - rewrite joining_public_room_members.
    by destruct (join_counts R (JoiningPublicRoom sid data) w).
  - unfold room_members_of. by rewrite joining_private_room_registry.
  - by rewrite leave_room_members.
  - unfold room_members_of. by rewrite send_public_message_registry.
  - unfold room_members_of. by rewrite send_private_message_registry.
  - unfold room_members_of. by rewrite upload_file_registry.
Qed.

Lemma join_and_leave_exclusive (e : event) w R :
  join_counts R e w = true -> leave_counts R e = false.
Proof. by destruct e. Qed.

Lemma successful_joins_nonneg R evs w : 0 <= successful_joins R evs w.
Proof.
  revert w. induction evs as [|e evs IH]; intros w; cbn; [done|].
  specialize (IH (world_after (handle e) w)). destruct (join_counts R e w); lia.
Qed.

Lemma leaves_nonneg R evs : 0 <= leaves R evs.
Proof. induction evs as [|e evs IH]; cbn; [done|]. destruct (leave_counts R e); lia. Qed.

(** The counter never drops below zero. *)
Lemma run_room_members_nonneg R evs w :
  0 <= room_members_of w R -> 0 <= room_members_of (run evs w) R.
Proof.
  revert w. induction evs as [|e evs IH]; intros w Hw; cbn; [done|].
  apply IH. rewrite handle_room_members.
  destruct (join_counts R e w); [lia|]. destruct (leave_counts R e); lia.
Qed.

(** It is never below the balance of joins and leaves. *)
Lemma run_room_members_lower R evs w :
  room_members_of w R + successful_joins R evs w - leaves R evs
  <= room_members_of (run evs w) R.
Proof.
  revert w. induction evs as [|e evs IH]; intros w; cbn; [lia|].
  specialize (IH (world_after (handle e) w)).
  rewrite handle_room_members in IH.
  pose proof (join_and_leave_exclusive e w R) as Hex.
  destruct (join_counts R e w); [rewrite Hex by done; lia|].
  destruct (leave_counts R e); lia.
Qed.

(** It equals that balance when no leave finds it at zero. *)
Lemma run_room_members_exact R evs w :
  (forall n, leaves R (take n evs)
             <= room_members_of w R + successful_joins R (take n evs) w) ->
  room_members_of (run evs w) R
  = room_members_of w R + successful_joins R evs w - leaves R evs.
Proof.
  revert w. induction evs as [|e evs IH]; intros w Hpre; cbn; [lia|].
  pose proof (Hpre 1%nat) as H1. cbn in H1. rewrite take_0 in H1. cbn in H1.
  pose proof (join_and_leave_exclusive e w R) as Hex.
  rewrite IH.
  - rewrite handle_room_members.
    destruct (join_counts R e w); [rewrite Hex by done; lia|].
    destruct (leave_counts R e); lia.
  - intros n. specialize (Hpre (S n)). cbn in Hpre.
    rewrite handle_room_members.
    destruct (join_counts R e w); [rewrite Hex in Hpre by done; lia|].
    destruct (leave_counts R e); lia.
Qed.

(** C1, as amended: starting from the empty registry, the counter of room
    [R] is at least zero after every prefix of any sequence of events;
    each successful join adds one to it and each accepted leave sets it to
    one less, clamped at zero; at the end it
    is at least (successful joins - leaves) clamped at zero, and it equals
    (successful joins - leaves) when at no point of the sequence the
    leaves outnumber the successful joins. *)
Theorem room_count_clamps_each_leave R evs (st : Store) :
  let w0 := initial_world st in
  (forall n, 0 <= room_members_of (run (take n evs) w0) R) /\
  (forall e w, join_counts R e w = true ->
     room_members_of (world_after (handle e) w) R = room_members_of w R + 1) /\
  (forall e w, leave_counts R e = true ->
     room_members_of (world_after (handle e) w) R = Z.max (room_members_of w R - 1) 0) /\
  Z.max (successful_joins R evs w0 - leaves R evs) 0 <= room_members_of (run evs w0) R /\
  ((forall n, leaves R (take n evs) <= successful_joins R (take n evs) w0) ->
     room_members_of (run evs w0) R = successful_joins R evs w0 - leaves R evs).
Proof.
  intros w0. assert (Hw0 : room_members_of w0 R = 0) by done.
  split_and!.
  - intros n. by apply run_room_members_nonneg.
  - intros e w He. by rewrite handle_room_members, He.
  - intros e w He. rewrite handle_room_members, He.
    destruct (join_counts R e w) eqn:Hj; [|done].
    apply join_and_leave_exclusive in Hj. congruence.
  - pose proof (run_room_members_lower R evs w0).
    pose proof (run_room_members_nonneg R evs w0). lia.
  - intros Hpre. rewrite run_room_members_exact; [lia|].
    intros n. specialize (Hpre n). lia.
Qed.

(** C10: [joining_private_room], successful or not, leaves the whole
    presence registry as it was and sends no [room_count] event; a
    successful [joining_public_room] adds one to the room's counter and
    sends the new value as [room_count] to the room. *)
Theorem private_join_not_counted :
  (forall sid data w,
     global_state (world_after (joining_private_room sid data) w) = global_state w /\
     Forall (fun a => is_room_count a = false) (trace_of (joining_private_room sid data) w)) /\
  (forall sid data r u report st w,
     dict_get data "room_id" = PStr r ->
     dict_get data "user_id" = PStr u ->
     join_public_room (db w) r u = (true, report, st) ->
     let w' := world_after (joining_public_room sid data) w in
     room_members_of w' r = room_members_of w r + 1 /\
     In (Emit "room_count" (PInt (room_members_of w' r)) (ToRoom (PStr r)))
        (trace_of (joining_public_room sid data) w)).
Proof.
  split.
  - intros sid data w. split.
    + apply joining_private_room_registry.
    + apply joining_private_room_no_room_count.
  - intros sid data r u report st w Hr Hu Hjoin w'. subst w'.
    unfold world_after, trace_of.
    rewrite joining_public_room_accepted with (1 := Hr) (2 := Hu) (3 := Hjoin).
    cbn.
    assert (Hcount : forall g (db' : Store) files,
      room_members_of
        {| global_state :=
             {| all_clients := g;
                rooms_client_count :=
                  <[r := room_members_of w r + 1]> (rooms_client_count (global_state w)) |};
           db := db'; uploads := files |} r = room_members_of w r + 1).
    { intros. unfold room_members_of at 1. cbn. by rewrite lookup_insert_eq. }
    rewrite !Hcount. split; [done|]. right. by left.
Qed.

(** ** Uploads *)

Lemma connect_uploads sid auth w : uploads (world_after (connect sid auth) w) = uploads w.
Proof. unfold connect, register_client, getattr_id. by_cases. Qed.

Lemma joining_public_room_uploads sid data w :
  uploads (world_after (joining_public_room sid data) w) = uploads w.
Proof. unfold joining_public_room. by_cases. Qed.

Lemma joining_private_room_uploads sid data w :
  uploads (world_after (joining_private_room sid data) w) = uploads w.
Proof. unfold joining_private_room. by_cases. Qed.

Lemma leave_room_uploads sid data w :
  uploads (world_after (leave_room sid data) w) = uploads w.
Proof. unfold leave_room. by_cases. Qed.

Lemma send_public_message_uploads sid data w :
  uploads (world_after (send_public_message sid data) w) = uploads w.
Proof. unfold send_public_message. by_cases. Qed.

Lemma send_private_message_uploads sid data w :
  uploads (world_after (send_private_message sid data) w) = uploads w.
Proof. unfold send_private_message. by_cases. Qed.

Lemma file_bytes_touch (files : gmap string (list Byte.byte)) p path :
  file_bytes (<[p := file_bytes files p]> files) path = file_bytes files path.
Proof.
  unfold file_bytes. destruct (decide (p = path)) as [->|Hne].
  - by rewrite lookup_insert_eq.
  - by rewrite lookup_insert_ne.
Qed.

Lemma file_bytes_append (files : gmap string (list Byte.byte)) p bs path :
  file_bytes (<[p := file_bytes files p ++ bs]> files) path
  = file_bytes files path ++ (if bool_decide (p = path) then bs else []).
Proof.
  unfold file_bytes. case_bool_decide as Hp.
  - subst p. by rewrite lookup_insert_eq.
  - rewrite lookup_insert_ne by done. by rewrite app_nil_r.
Qed.

Lemma upload_file_bytes sid data w path :
  file_bytes (uploads (world_after (upload_file sid data) w)) path
  = file_bytes (uploads w) path ++ written_to path (UploadFile sid data).
Proof.
  unfold written_to, accepted_chunk, upload_file.
  destruct (dict_get data "room_id") as [| | |r| | |]; cbn; try by rewrite app_nil_r.
  destruct (dict_get data "user_id") as [| | |u| | |]; cbn; try by rewrite app_nil_r.
  destruct (dict_get data "file_info") as [| | | | | |info]; cbn; try by rewrite app_nil_r.
  destruct (dict_get data "file_chunk") as [|[]|z|c|bs|l|d] eqn:Hc; cbn;
    try by rewrite app_nil_r.
  all: unfold_m; unfold open_append, write_append.
  all: try (destruct bs as [|b bs]; cbn; [by rewrite app_nil_r|]).
  all: destruct (fs_open _) as [e|file]; cbn; try by rewrite app_nil_r.
  all: try (repeat case_match; cbn; rewrite ?file_bytes_touch, ?app_nil_r; done).
  rewrite insert_insert_eq. unfold file_bytes at 2. rewrite lookup_insert_eq. cbn.
  apply file_bytes_append.
Qed.

Lemma handle_file_bytes (e : event) w path :
  file_bytes (uploads (world_after (handle e) w)) path
  = file_bytes (uploads w) path ++ written_to path e.
Proof.
  destruct e as [sid auth|sid|sid data|sid data|sid data|sid data|sid data|sid data];
    cbn [handle]; try apply upload_file_bytes; unfold written_to; cbn;
    rewrite app_nil_r.
  - by rewrite connect_uploads.
  - done.
  - by rewrite joining_public_room_uploads.
  - by rewrite joining_private_room_uploads.
  - by rewrite leave_room_uploads.
  - by rewrite send_public_message_uploads.
  - by rewrite send_private_message_uploads.
Qed.

Lemma accepted_chunk_nonempty (e : event) path bs :
  accepted_chunk e = Some (path, bs) -> (0 < length bs)%nat.
Proof.
  destruct e as [| | | | | | |sid data]; try done. cbn.
  destruct (dict_get data "room_id"); try done.
  destruct (dict_get data "user_id"); try done.
  destruct (dict_get data "file_info"); try done.
  destruct (dict_get data "file_chunk") as [| | | |[|b bs']| |]; try done.
  destruct (fs_open _); [done|]. intros [= _ <-]. cbn. lia.
Qed.

Lemma chunks_for_cons path (e : event) evs :
  concat (chunks_for path (e :: evs)) = written_to path e ++ concat (chunks_for path evs).
Proof.
  unfold written_to. cbn. destruct (accepted_chunk e) as [[p bs]|]; [|done].
  by case_bool_decide.
Qed.

Lemma run_file_bytes path evs w :
  file_bytes (uploads (run evs w)) path
  = file_bytes (uploads w) path ++ concat (chunks_for path evs).
Proof.
  revert w. induction evs as [|e evs IH]; intros w.
  - cbn. by rewrite app_nil_r.
  - cbn [run]. rewrite IH, handle_file_bytes, chunks_for_cons. by rewrite <- app_assoc.
Qed.

(** An accepted chunk of the session [(u, f)] goes to the file that the
    session's path names. *)
Lemma accepted_chunk_session (e : event) file bs u f :
  accepted_chunk e = Some (file, bs) ->
  upload_session e = Some (u, f) ->
  fs_open (upload_path (PStr u) (PStr f)) = inr file.
Proof.
  destruct e as [| | | | | | |sid data]; try done. cbn.
  destruct (dict_get data "room_id"); try done.
  destruct (dict_get data "user_id"); try done.
  destruct (dict_get data "file_info") as [| | | | | |info]; try done.
  destruct (dict_get data "file_chunk") as [| | | |[|b bs']| |]; try done.
  destruct (dict_get info "upload_id") as [| | |u'| | |]; try done.
  destruct (dict_get info "filename") as [| | |f'| | |]; try done.
  destruct (fs_open _) as [exc|file'] eqn:Hopen; [done|].
  by intros [= <- _] [= <- <-].
Qed.

(** When only one session writes to a file, the chunks written to the file
    are the chunks of that session. *)
Lemma chunks_for_session file u f (evs : list event) :
  fs_open (upload_path (PStr u) (PStr f)) = inr file ->
  (forall e bs, In e evs -> accepted_chunk e = Some (file, bs) ->
                upload_session e = Some (u, f)) ->
  chunks_for file evs = session_chunks u f evs.
Proof.
  intros Hopen. induction evs as [|e evs IH]; intros Honly; [done|]. cbn.
  assert (IH' : chunks_for file evs = session_chunks u f evs).
  { apply IH. intros e' bs Hin. apply Honly. by right. }
  destruct (accepted_chunk e) as [[file' bs]|] eqn:He; [|done].
  case_bool_decide as Hfile; case_bool_decide as Hsession.
  - by rewrite IH'.
  - subst file'. destruct Hsession. apply (Honly e bs); [by left|done].
  - destruct Hfile.
    pose proof (accepted_chunk_session e file' bs u f He Hsession) as Hopen'.
    congruence.
  - done.
Qed.

(** C6, as amended: whatever sizes the events declare, a file of the upload
    directory holds, after any sequence of events, what it held before
    followed by the accepted chunks whose path names it, in arrival order,
    so its length is the earlier length plus the sum of their sizes; no
    event makes it shorter and each accepted chunk makes it longer by the
    size of the chunk. For a session [(u, f)] whose path opens that file,
    and as long as every accepted chunk written to the file belongs to the
    session, the file holds what it held before followed by exactly the
    session's accepted chunks in arrival order. *)
Theorem upload_sink_appends_in_order file evs w :
  file_bytes (uploads (run evs w)) file
    = file_bytes (uploads w) file ++ concat (chunks_for file evs) /\
  (length (file_bytes (uploads (run evs w)) file)
    = length (file_bytes (uploads w) file) + sum_list (length <$> chunks_for file evs))%nat /\
  (forall e w1, length (file_bytes (uploads w1) file)
                <= length (file_bytes (uploads (world_after (handle e) w1)) file))%nat /\
  (forall e w1 bs, accepted_chunk e = Some (file, bs) ->
     (0 < length bs)%nat /\
     (length (file_bytes (uploads (world_after (handle e) w1)) file)
      = length (file_bytes (uploads w1) file) + length bs)%nat) /\
  (forall u f,
     fs_open (upload_path (PStr u) (PStr f)) = inr file ->
     (forall e bs, In e evs -> accepted_chunk e = Some (file, bs) ->
                   upload_session e = Some (u, f)) ->
     file_bytes (uploads (run evs w)) file
       = file_bytes (uploads w) file ++ concat (session_chunks u f evs) /\
     (length (file_bytes (uploads (run evs w)) file)
       = length (file_bytes (uploads w) file)
         + sum_list (length <$> session_chunks u f evs))%nat).
Proof.
  assert (Hlen : forall cs : list (list Byte.byte),
            length (concat cs) = sum_list (length <$> cs)).
  { induction cs as [|c cs IH]; cbn; [done|]. by rewrite length_app, IH. }
  split_and!.
  - apply run_file_bytes.
  - by rewrite run_file_bytes, length_app, Hlen.
  - intros e w1. rewrite handle_file_bytes, length_app. lia.
  - intros e w1 bs He. rewrite handle_file_bytes, length_app.
    unfold written_to. rewrite He. rewrite bool_decide_eq_true_2 by done.
    split; [|done]. by apply accepted_chunk_nonempty in He.
  - intros u f Hopen Honly.
    rewrite <- (chunks_for_session file u f evs Hopen Honly).
    split; [apply run_file_bytes|]. by rewrite run_file_bytes, length_app, Hlen.
Qed.

(** ** Authentication *)

(** [verify_token] gives [None] exactly when the token does not decode or
    carries no subject. *)
Lemma verify_token_None token :
  verify_token token = ObjNone <->
  jwt_decode token = None \/
  exists payload, jwt_decode token = Some payload /\ dict_get payload "sub" = PNone.
Proof.
  unfold verify_token. destruct (jwt_decode token) as [payload|]; [|by split; [left|]].
  split.
  - intros Hnone. right. exists payload. split; [done|].
    by destruct (dict_get payload "sub").
  - intros [[=]|(payload' & [= <-] & ->)]. done.
Qed.

(** With a subject in the token, [verify_token] returns the coroutine
    object of the store lookup, whatever the store holds. *)
Lemma verify_token_subject token payload :
  jwt_decode token = Some payload ->
  dict_get payload "sub" <> PNone ->
  verify_token token = ObjCoroutine (user_model_fetch_user_by_id (dict_get payload "sub")).
Proof.
  intros Hdec Hsub. unfold verify_token. rewrite Hdec.
  by destruct (dict_get payload "sub").
Qed.

(** X23: a missing or empty token, a token that does not decode and a
    token without subject end in [sio_server.disconnect(sid)]: nothing is
    emitted and nothing changes. *)
Lemma connect_refused sid auth w :
  let token := dict_get auth "token" in
  truthy token = false \/ jwt_decode token = None \/
  (exists payload, jwt_decode token = Some payload /\ dict_get payload "sub" = PNone) ->
  connect sid auth w = (Ret tt, w, [Disconnect sid]).
Proof.
  intros token Hbad. unfold connect. fold token.
  destruct (truthy token); [|done]. cbn [negb].
  destruct Hbad as [?|Hbad]; [done|].
  apply verify_token_None in Hbad. by rewrite Hbad.
Qed.

(** A token with a subject makes [connect] fail on [user.id]: the
    registry is untouched and nothing is sent, whether the store knows the
    subject or not. *)
Lemma connect_with_subject_raises sid auth payload w :
  let token := dict_get auth "token" in
  truthy token = true ->
  jwt_decode token = Some payload ->
  dict_get payload "sub" <> PNone ->
  connect sid auth w = (Raise (AttributeError "id"), w, []).
Proof.
  intros token Htruthy Hdec Hsub. unfold connect. fold token.
  rewrite Htruthy. cbn [negb].
  by rewrite verify_token_subject with (1 := Hdec) (2 := Hsub).
Qed.

(** Had [user] been a user record, the rest of [connect] would count the
    client and broadcast the new total. *)
Lemma register_client_user sid (u : UserInDB) w :
  register_client sid (ObjUser u) w =
    (Ret tt,
     {| global_state := {| all_clients := total_clients w + 1;
                           rooms_client_count := rooms_client_count (global_state w) |};
        db := db w; uploads := uploads w |},
     [EnvironSet sid "user_id" (PStr (user_id_of u));
      Emit "client_count" (PInt (total_clients w + 1)) ToAll]).
Proof. done. Qed.

(** No [connect] adds to [all_clients]. *)
Lemma connect_total sid auth w :
  total_clients (world_after (connect sid auth) w) = total_clients w.
Proof. unfold connect, register_client, getattr_id, verify_token. by_cases. Qed.

(** One event changes [all_clients] only if it is a disconnect, which
    takes one off without looking at the value. *)
Lemma handle_total_clients (e : event) w :
  total_clients (world_after (handle e) w) =
    match e with
    | Disconnected _ => total_clients w - 1
    | _ => total_clients w
    end.
Proof.
  destruct e as [sid auth|sid|sid data|sid data|sid data|sid data|sid data|sid data];
    cbn [handle]; unfold total_clients.
  - apply connect_total.
  - done.
  - unfold joining_public_room. by_cases.
  - by rewrite joining_private_room_registry.
  - unfold leave_room. by_cases.
  - by rewrite send_public_message_registry.
  - by rewrite send_private_message_registry.
  - by rewrite upload_file_registry.
Qed.

(** No sequence of events raises [all_clients]: from the start it is never
    above zero, and below zero as soon as a disconnect was handled. *)
Lemma run_total_clients_le (evs : list event) w :
  total_clients (run evs w) <= total_clients w.
Proof.
  revert w. induction evs as [|e evs IH]; intros w; cbn; [done|].
  etransitivity; [apply IH|]. rewrite handle_total_clients. destruct e; lia.
Qed.

Lemma run_total_clients_after_disconnect sid (evs : list event) w :
  total_clients (run (Disconnected sid :: evs) w) < total_clients w.
Proof.
  cbn [run].
  pose proof (run_total_clients_le evs (world_after (handle (Disconnected sid)) w)) as Hle.
  rewrite handle_total_clients in Hle. lia.
Qed.

(** * Further properties of the handlers *)

(** ** Room events *)

(** X1: [joining_public_room] and [leave_room] answer a payload whose
    [room_id] or [user_id] is missing or not a string with the single event
    [error] "Invalid room_id or user_id" to the sender; the store is not
    asked, no room is entered or left, and nothing changes. *)
Theorem room_events_reject_non_string_ids sid data w :
  isinstance_str (dict_get data "room_id") = false \/
  isinstance_str (dict_get data "user_id") = false ->
  let refused := (Ret tt, w, [Emit "error" (PStr "Invalid room_id or user_id") (ToRoom (PStr sid))]) in
  joining_public_room sid data w = refused /\ leave_room sid data w = refused.
Proof.
  intros Hbad refused. subst refused. unfold joining_public_room, leave_room.
  destruct (dict_get data "room_id") as [| | |r| | |];
    destruct (dict_get data "user_id") as [| | |u| | |]; try done.
  by destruct Hbad.
Qed.

(** X2: when the store refuses a public join, [joining_public_room] passes
    the store's report to the sender as an [error] event and does nothing
    else: the connection enters no room, the presence registry is as
    before, and no [room_count] or [user_joined] is sent. *)
Theorem joining_public_room_refused sid data r u report st w :
  dict_get data "room_id" = PStr r ->
  dict_get data "user_id" = PStr u ->
  join_public_room (db w) r u = (false, report, st) ->
  joining_public_room sid data w =
    (Ret tt, with_db w st, [Emit "error" report (ToRoom (PStr sid))]).
Proof.
  intros Hr Hu Hjoin. unfold joining_public_room. rewrite Hr, Hu.
  unfold_m. cbn. by rewrite Hjoin.
Qed.


(** X4: a successful public join followed by a leave of the same room puts
    the room's counter back to what it was, whoever sends the leave,
    provided the counter was not negative. *)
Theorem join_then_leave_restores_count sid sid' data data' r u u' report st w :
  dict_get data "room_id" = PStr r ->
  dict_get data "user_id" = PStr u ->
  dict_get data' "room_id" = PStr r ->
  dict_get data' "user_id" = PStr u' ->
  join_public_room (db w) r u = (true, report, st) ->
  0 <= room_members_of w r ->
  room_members_of (run [JoiningPublicRoom sid data; LeaveRoomEv sid' data'] w) r
  = room_members_of w r.
Proof.
  intros Hr Hu Hr' Hu' Hjoin Hpos. cbn [run handle].
  rewrite leave_room_members, joining_public_room_members.
  unfold leave_counts, join_counts. rewrite Hr, Hu, Hr', Hu', Hjoin. cbn.
  rewrite bool_decide_eq_true_2 by done. cbn. lia.
Qed.

(** X5: leaves pile up only down to zero: after a run of [k] accepted
    leaves of room [R] the counter is the earlier value minus [k], clamped
    at zero. *)
Theorem repeated_leaves_clamp R (evs : list event) w :
  Forall (fun e => leave_counts R e = true) evs ->
  0 <= room_members_of w R ->
  room_members_of (run evs w) R = Z.max (room_members_of w R - Z.of_nat (length evs)) 0.
Proof.
  revert w. induction evs as [|e evs IH]; intros w Hall Hpos.
  - cbn. lia.
  - inversion Hall as [|? ? He Hrest]; subst. cbn [run].
    assert (Hstep : room_members_of (world_after (handle e) w) R
                    = Z.max (room_members_of w R - 1) 0).
    { rewrite handle_room_members, He.
      destruct (join_counts R e w) eqn:Hj; [|done].
      apply join_and_leave_exclusive in Hj. congruence. }
    rewrite IH by (done || lia). rewrite Hstep. cbn [length]. lia.
Qed.

(** X6: joins are counted, not members: as long as no leave of room [R] is
    handled, the counter grows by the number of successful joins, also when
    the same user joins again from the same connection. *)
Theorem joins_are_not_deduplicated R (evs : list event) w :
  leaves R evs = 0 ->
  room_members_of (run evs w) R = room_members_of w R + successful_joins R evs w.
Proof.
  revert w. induction evs as [|e evs IH]; intros w Hnone; cbn; [lia|].
  cbn in Hnone. pose proof (leaves_nonneg R evs) as Hge.
  destruct (leave_counts R e) eqn:He; [lia|].
  rewrite IH by lia. rewrite handle_room_members, He.
  destruct (join_counts R e w); lia.
Qed.

(** X7: the counter of a room moves only on [joining_public_room] and
    [leave_room] events that name this room: every other kind of event
    leaves all counters as they are, and a join or leave naming another
    room leaves this one's counter alone. *)
Theorem room_counter_frame :
  (forall (e : event) w,
     (forall sid data, e <> JoiningPublicRoom sid data) ->
     (forall sid data, e <> LeaveRoomEv sid data) ->
     rooms_client_count (global_state (world_after (handle e) w))
     = rooms_client_count (global_state w)) /\
  (forall sid data r R w,
     dict_get data "room_id" = PStr r -> r <> R ->
     room_members_of (world_after (joining_public_room sid data) w) R = room_members_of w R /\
     room_members_of (world_after (leave_room sid data) w) R = room_members_of w R).
Proof.
  split.
  - intros e w Hjoin Hleave.
    destruct e as [sid auth|sid|sid data|sid data|sid data|sid data|sid data|sid data];
      cbn [handle].
    + apply connect_rooms.
    + done.
    + by destruct (Hjoin sid data).
    + by rewrite joining_private_room_registry.
    + by destruct (Hleave sid data).
    + by rewrite send_public_message_registry.
    + by rewrite send_private_message_registry.
    + by rewrite upload_file_registry.
  - intros sid data r R w Hr Hne.
    rewrite joining_public_room_members, leave_room_members.
    unfold join_counts, leave_counts. rewrite Hr.
    destruct (dict_get data "user_id"); try done.
    by rewrite bool_decide_eq_false_2.
Qed.

(** ** Messages *)


(** X10: [send_private_message] does the same two lookups; its texts are
    "Room not found" and "Users not found", and again nothing is stored or
    sent to the room. *)
Theorem send_private_message_not_found sid data room_id user_id text w :
  data !! "room_id" = Some room_id ->
  data !! "user_id" = Some user_id ->
  data !! "message" = Some text ->
  let refused reason :=
    (Ret tt, w, [Emit "error" (PDict {[ "error" := PStr reason ]}) (ToRoom (PStr sid))]) in
  (fetch_private_room_by_id (db w) room_id = None ->
     send_private_message sid data w = refused "Room not found") /\
  (is_Some (fetch_private_room_by_id (db w) room_id) ->
   fetch_user_by_id (db w) user_id = None ->
     send_private_message sid data w = refused "Users not found").
Proof.
  intros Hroom Huser Htext refused. subst refused.
  unfold send_private_message. unfold_m.
  rewrite !dict_item_Some with (1 := Hroom).
  rewrite !dict_item_Some with (1 := Huser).
  rewrite !dict_item_Some with (1 := Htext). cbn.
  split.
  - intros ->. cbn. by rewrite world_eta.
  - intros [room ->] Hu. cbn. rewrite Hu. cbn. by rewrite !world_eta.
Qed.

(** X11: the handlers that index the payload raise [KeyError] for the
    first key they read and do not find: [joining_private_room] reads
    [room_id] then [user_id], [send_public_message] reads [room_id],
    [message], [user_id], and [send_private_message] reads [room_id],
    [user_id], [message]. This happens before any lookup, so nothing is
    stored, nothing is sent and nothing changes. *)
Theorem missing_payload_key_raises sid data k w :
  (first_missing data ["room_id"; "user_id"] = Some k ->
     joining_private_room sid data w = (Raise (KeyError k), w, [])) /\
  (first_missing data ["room_id"; "message"; "user_id"] = Some k ->
     send_public_message sid data w = (Raise (KeyError k), w, [])) /\
  (first_missing data ["room_id"; "user_id"; "message"] = Some k ->
     send_private_message sid data w = (Raise (KeyError k), w, [])).
Proof.
  unfold joining_private_room, send_public_message, send_private_message, dict_item.
  unfold_m. cbn.
  destruct (data !! "room_id") as [room_id|] eqn:Hr;
    destruct (data !! "user_id") as [user_id|] eqn:Hu;
    destruct (data !! "message") as [text|] eqn:Ht; cbn;
    split_and!; intros [= <-]; done.
Qed.

(** ** Uploads *)

(** X12: a chunk that passes the check of [upload_file] without being bytes
    (text, a number, a list) makes [file.write] raise [TypeError] once the
    file is open: when the path can be opened, no [file_uploaded] is sent,
    every file keeps its content, and a file that did not exist is left
    behind empty. When the path cannot be opened, the error of the file
    system is raised instead and nothing is created. *)
Theorem upload_file_non_bytes_chunk sid data info w :
  isinstance_str (dict_get data "room_id") = true ->
  isinstance_str (dict_get data "user_id") = true ->
  dict_get data "file_info" = PDict info ->
  truthy (dict_get data "file_chunk") = true ->
  (forall bs, dict_get data "file_chunk" <> PBytes bs) ->
  let path := upload_path (dict_get info "upload_id") (dict_get info "filename") in
  let w' := world_after (upload_file sid data) w in
  (forall file, fs_open path = inr file ->
     result_of (upload_file sid data) w = Raise TypeError /\
     trace_of (upload_file sid data) w = [] /\
     (forall f, file_bytes (uploads w') f = file_bytes (uploads w) f) /\
     (uploads w !! file = None -> uploads w' !! file = Some [])) /\
  (forall e, fs_open path = inl e -> upload_file sid data w = (Raise e, w, [])).
Proof.
  intros Hr Hu Hinfo Htruthy Hnot path w'. subst w'.
  unfold result_of, trace_of, world_after, upload_file.
  rewrite Hr, Hu, Hinfo, Htruthy. cbn [negb orb]. fold path.
  unfold_m. unfold open_append, write_append.
  split.
  - intros file Hopen. rewrite Hopen.
    destruct (dict_get data "file_chunk") as [| | | |bs| |] eqn:Hc; cbn;
      try (by destruct (Hnot bs));
      (split_and!; [done|done|intros f; apply file_bytes_touch|
                    intros Hnew; rewrite lookup_insert_eq; unfold file_bytes; by rewrite Hnew]).
  - intros e Hopen. by rewrite Hopen.
Qed.

Lemma string_app_assoc (a b c : string) : (a +:+ b) +:+ c = a +:+ (b +:+ c).
Proof.
  induction a as [|x a IH]; [done|].
  change (String x ((a +:+ b) +:+ c) = String x (a +:+ (b +:+ c))).
  by rewrite IH.
Qed.

(** X13: the path of an upload does not separate the upload id from the
    file name: when [str] of a string is the string itself, the session
    (id [u_f], name [g]) and the session (id [u], name [f_g]) write to the
    same file. *)
Theorem upload_sessions_share_path (u f g : string) :
  (forall s, py_str (PStr s) = s) ->
  upload_path (PStr (u +:+ "_" +:+ f)) (PStr g)
  = upload_path (PStr u) (PStr (f +:+ "_" +:+ g)).
Proof.
  intros Hstr. unfold upload_path. rewrite !Hstr.
  by rewrite !string_app_assoc.
Qed.

Lemma disconnect_db sid w : db (world_after (disconnect sid) w) = db w.
Proof. done. Qed.

Lemma connect_db sid auth w : db (world_after (connect sid auth) w) = db w.
Proof. unfold connect, register_client, getattr_id. by_cases. Qed.

Lemma joining_private_room_db sid data w :
  db (world_after (joining_private_room sid data) w) = db w.
Proof. unfold joining_private_room. by_cases. Qed.

Lemma leave_room_db sid data w : db (world_after (leave_room sid data) w) = db w.
Proof. unfold leave_room. by_cases. Qed.

Lemma upload_file_db sid data w : db (world_after (upload_file sid data) w) = db w.
Proof. unfold upload_file, open_append, write_append. by_cases. Qed.

(** X14: files are written by [upload_file] only, and the store is changed
    only by a public join or by sending a message: no other event touches
    the uploads, and [connect], [disconnect], [joining_private_room],
    [leave_room] and [upload_file] leave the store as it is. *)
Theorem files_and_store_frame (e : event) w :
  ((forall sid data, e <> UploadFile sid data) ->
     uploads (world_after (handle e) w) = uploads w) /\
  ((forall sid data, e <> JoiningPublicRoom sid data) ->
   (forall sid data, e <> SendPublicMessage sid data) ->
   (forall sid data, e <> SendPrivateMessage sid data) ->
     db (world_after (handle e) w) = db w).
Proof.
  destruct e as [sid auth|sid|sid data|sid data|sid data|sid data|sid data|sid data];
    cbn [handle]; split; intros; try done.
  all: try match goal with
           | Hne : forall s d, _ <> _ |- _ => by destruct (Hne sid data)
           end.
  - apply connect_uploads.
  - apply connect_db.
  - apply joining_public_room_uploads.
  - apply joining_private_room_uploads.
  - apply joining_private_room_db.
  - apply leave_room_uploads.
  - apply leave_room_db.
  - apply send_public_message_uploads.
  - apply send_private_message_uploads.
  - apply upload_file_db.
Qed.

(** ** Across handlers *)

(** X15: [all_clients] is the number it started with minus the number of
    disconnect events handled: no other event changes it, and no connect
    adds to it. *)
Theorem total_clients_accounting (evs : list event) w :
  total_clients (run evs w) = total_clients w - disconnects evs.
Proof.
  revert w. induction evs as [|e evs IH]; intros w; cbn [run disconnects]; [lia|].
  rewrite IH, handle_total_clients. destruct e; lia.
Qed.

(** Closes a goal about every action of a literal trace. *)
Ltac each_action :=
  repeat (apply Forall_cons; split; [intros ? ? ?; by simplify_eq|]);
  by apply Forall_nil.

(** X16: an [error] event is sent to the connection the event came from and
    to nobody else, whatever the handler and the payload. *)
Theorem errors_go_to_the_sender_only (e : event) w :
  Forall (fun a => forall payload tgt, a = Emit "error" payload tgt ->
                   tgt = ToRoom (PStr (event_sid e)))
         (trace_of (handle e) w).
Proof.
  destruct e as [sid auth|sid|sid data|sid data|sid data|sid data|sid data|sid data];
    cbn [handle event_sid].
  - unfold connect, register_client, getattr_id. by_cases; each_action.
  - unfold trace_of, disconnect. unfold_m. cbn. each_action.
  - unfold joining_public_room. by_cases; each_action.
  - unfold joining_private_room. by_cases; each_action.
  - unfold leave_room. by_cases; each_action.
  - unfold send_public_message. by_cases; each_action.
  - unfold send_private_message. by_cases; each_action.
  - unfold upload_file, open_append, write_append. by_cases; each_action.
Qed.

Lemma handle_counters_nonneg (e : event) w :
  counters_nonneg w -> counters_nonneg (world_after (handle e) w).
Proof.
  intros Hw R. rewrite handle_room_members. specialize (Hw R).
  destruct (join_counts R e w); [lia|]. destruct (leave_counts R e); lia.
Qed.

Lemma handle_room_count_values (e : event) w :
  counters_nonneg w ->
  Forall (fun a => forall v tgt, a = Emit "room_count" v tgt ->
                   exists n, v = PInt n /\ 0 <= n)
         (trace_of (handle e) w).
Proof.
  intros Hw.
  destruct e as [sid auth|sid|sid data|sid data|sid data|sid data|sid data|sid data];
    cbn [handle].
  - unfold connect, register_client, getattr_id. by_cases; each_action.
  - unfold trace_of, disconnect. unfold_m. cbn. each_action.
  - unfold joining_public_room.
    destruct (dict_get data "room_id") as [| | |r| | |];
      destruct (dict_get data "user_id") as [| | |u| | |];
      try (unfold_m; cbn; each_action).
    unfold_m. cbn.
    destruct (join_public_room (db w) r u) as [[[] report] st]; cbn; [|each_action].
    rewrite lookup_insert_eq. cbn.
    apply Forall_cons; split; [done|].
    apply Forall_cons; split; [|each_action].
    intros v tgt [= <- _]. eexists; split; [done|].
    specialize (Hw r). unfold room_members_of in Hw. lia.
  - unfold joining_private_room. by_cases; each_action.
  - unfold leave_room.
    destruct (dict_get data "room_id") as [| | |r| | |];
      destruct (dict_get data "user_id") as [| | |u| | |];
      try (unfold_m; cbn; each_action).
    unfold_m. cbn. rewrite lookup_insert_eq. cbn.
    apply Forall_cons; split; [done|].
    apply Forall_cons; split; [|each_action].
    intros v tgt [= <- _]. eexists; split; [done|]. lia.
  - unfold send_public_message. by_cases; each_action.
  - unfold send_private_message. by_cases; each_action.
  - unfold upload_file, open_append, write_append. by_cases; each_action.
Qed.

(** X17: from the start of the process, every [room_count] event ever sent
    carries an integer that is at least zero, for any sequence of events. *)
Theorem room_count_events_never_negative (evs : list event) (st : Store) :
  Forall (fun a => forall v tgt, a = Emit "room_count" v tgt ->
                   exists n, v = PInt n /\ 0 <= n)
         (run_trace evs (initial_world st)).
Proof.
  assert (Hinit : counters_nonneg (initial_world st)) by (by intros R).
  revert Hinit. generalize (initial_world st) as w.
  induction evs as [|e evs IH]; intros w Hw; cbn [run_trace]; [by apply Forall_nil|].
  apply Forall_app. split.
  - by apply handle_room_count_values.
  - apply IH. by apply handle_counters_nonneg.
Qed.

(** X18: the only event ever sent to all connections is [client_count]:
    every other event of every handler is addressed to a room or to the
    sender. *)
Theorem only_client_count_goes_to_all (e : event) w :
  Forall (fun a => forall name payload, a = Emit name payload ToAll -> name = "client_count")
         (trace_of (handle e) w).
Proof.
  destruct e as [sid auth|sid|sid data|sid data|sid data|sid data|sid data|sid data];
    cbn [handle].
  - unfold connect, register_client, getattr_id. by_cases; each_action.
  - unfold trace_of, disconnect. unfold_m. cbn. each_action.
  - unfold joining_public_room. by_cases; each_action.
  - unfold joining_private_room. by_cases; each_action.
  - unfold leave_room. by_cases; each_action.
  - unfold send_public_message. by_cases; each_action.
  - unfold send_private_message. by_cases; each_action.
  - unfold upload_file, open_append, write_append. by_cases; each_action.
Qed.

(** X19: [upload_file] never asks the store anything: with the same
    registry and files, it gives the same outcome, writes the same files
    and sends the same events whatever the store holds, so neither the room
    nor the user of the payload has to exist. *)
Theorem upload_file_ignores_the_store sid data w (st : Store) :
  result_of (upload_file sid data) (with_db w st) = result_of (upload_file sid data) w /\
  trace_of (upload_file sid data) (with_db w st) = trace_of (upload_file sid data) w /\
  uploads (world_after (upload_file sid data) (with_db w st))
    = uploads (world_after (upload_file sid data) w) /\
  global_state (world_after (upload_file sid data) (with_db w st))
    = global_state (world_after (upload_file sid data) w).
Proof.
  unfold upload_file, open_append, write_append, with_db. by_cases.
Qed.
End Properties.

(** * The handlers on concrete inputs *)

(** C1, the claim as stated fails: a leave on the empty room followed by a
    successful join leaves the counter at 1, while (joins - leaves) clamped
    at zero is 0. *)
Lemma room_count_differs_from_clamped_balance :
  let evs := [LeaveRoomEv "s1" (room_event "lobby" "alice");
              JoiningPublicRoom "s1" (room_event "lobby" "alice")] in
  successful_joins "lobby" evs demo_world = 1 /\
  leaves "lobby" evs = 1 /\
  room_members_of (run evs demo_world) "lobby" = 1 /\
  room_members_of (run evs demo_world) "lobby"
    <> Z.max (successful_joins "lobby" evs demo_world - leaves "lobby" evs) 0.
Proof. by vm_compute. Qed.

Lemma room_count_clamps_each_leave_witness :
  let evs := [JoiningPublicRoom "s1" (room_event "lobby" "alice");
              JoiningPublicRoom "s2" (room_event "lobby" "bob");
              LeaveRoomEv "s1" (room_event "lobby" "alice")] in
  (forall n, leaves "lobby" (take n evs) <= successful_joins "lobby" (take n evs) demo_world) /\
  room_members_of (run evs demo_world) "lobby" = 2 - 1.
Proof.
  intros evs.
  assert (Hpre : forall n, leaves "lobby" (take n evs)
                           <= successful_joins "lobby" (take n evs) demo_world).
  { intros [|[|[|[|n]]]]; by vm_compute. }
  split; [exact Hpre|].
  destruct (room_count_clamps_each_leave "lobby" evs demo_store) as (_ & _ & _ & _ & Hexact).
  etransitivity; [exact (Hexact Hpre)|]. by vm_compute.
Defined.

(** C2, at a token whose subject is a user of the store: the token decodes,
    its subject ["alice"] resolves to a user, and [connect] raises
    [AttributeError] on [user.id]; [all_clients] stays at 0 and no
    [client_count] is broadcast. *)
Theorem connect_with_valid_token_raises :
  let auth : dict := {[ "token" := PStr "token:alice" ]} in
  jwt_decode (dict_get auth "token") = Some {[ "sub" := PStr "alice" ]} /\
  fetch_user_by_id demo_store (PStr "alice") = Some alice /\
  connect "s1" auth demo_world = (Raise (AttributeError "id"), demo_world, []) /\
  total_clients (world_after (connect "s1" auth) demo_world) = 0.
Proof.
  intros auth.
  assert (Hraise : connect "s1" auth demo_world = (Raise (AttributeError "id"), demo_world, [])).
  { apply connect_with_subject_raises with (payload := {[ "sub" := PStr "alice" ]});
      by vm_compute. }
  split_and!; [by vm_compute|by vm_compute|exact Hraise|].
  unfold world_after. by rewrite Hraise.
Qed.

(** The refusals of [connect], on the same store: no token, a token that
    does not decode, a token without subject. *)
Example connect_refusals :
  connect "s1" ∅ demo_world = (Ret tt, demo_world, [Disconnect "s1"]) /\
  connect "s1" {[ "token" := PStr "garbage" ]} demo_world
    = (Ret tt, demo_world, [Disconnect "s1"]) /\
  connect "s1" {[ "token" := PStr "token-without-sub" ]} demo_world
    = (Ret tt, demo_world, [Disconnect "s1"]).
Proof.
  split_and!; apply connect_refused.
  - by left.
  - right. by left.
  - right. right. by exists ∅.
Defined.

(** A subject unknown to the store is not refused either: [connect] raises
    in the same way. *)
Example connect_unknown_subject :
  fetch_user_by_id demo_store (PStr "mallory") = None /\
  connect "s1" {[ "token" := PStr "token:mallory" ]} demo_world
    = (Raise (AttributeError "id"), demo_world, []).
Proof.
  split; [by vm_compute|].
  apply connect_with_subject_raises with (payload := {[ "sub" := PStr "mallory" ]});
    by vm_compute.
Qed.

(** C7, at a refused connection that then goes away: [connect] without a
    token leaves [all_clients] at 0, and the [disconnect] that follows takes
    it to -1 and broadcasts that value. *)
Theorem total_clients_goes_negative :
  let evs := [Connect "s1" ∅; Disconnected "s1"] in
  total_clients (run evs demo_world) = -1 /\
  run_trace evs demo_world = [Disconnect "s1"; Emit "client_count" (PInt (-1)) ToAll].
Proof. by vm_compute. Qed.


(** C3, at a sender who is not a member: the room ["lobby"] and the user
    ["bob"] exist, awaiting the membership check would answer false, and
    [send_public_message] stores bob's message and sends it to the room. *)
Theorem send_public_message_from_non_member_is_delivered :
  let data := message_event "lobby" "bob" "hi" in
  is_Some (fetch_public_room_by_id demo_store (PStr "lobby")) /\
  is_Some (fetch_user_by_id demo_store (PStr "bob")) /\
  check_user_in_public_room demo_store (PStr "lobby") (PStr "bob") = false /\
  messages (db (world_after (send_public_message "s2" data) demo_world))
    = [{| message_id := "0"; message_room := PStr "lobby"; message_sender := PStr "bob";
          message_visibility := "public"; content := PStr "hi" |}] /\
  trace_of (send_public_message "s2" data) demo_world
    = [Emit "message"
         (PDict {[ "sid" := PStr "s2"; "message" := PStr "hi"; "user_id" := PStr "bob" ]})
         (ToRoom (PStr "lobby"))].
Proof.
  intros data.
  assert (Hroom : is_Some (fetch_public_room_by_id demo_store (PStr "lobby")))
    by (vm_compute; eauto).
  assert (Huser : is_Some (fetch_user_by_id demo_store (PStr "bob")))
    by (vm_compute; eauto).
  refine (conj Hroom (conj Huser (conj eq_refl _))).
  unfold world_after, trace_of.
  rewrite (send_public_message_found "s2" data (PStr "lobby") (PStr "hi") (PStr "bob")
             demo_world);
    [by vm_compute|by vm_compute|by vm_compute|by vm_compute|exact Hroom|exact Huser].
Qed.

Lemma joining_private_room_checks_witness :
  let data := room_event "board" "bob" in
  is_Some (fetch_private_room_by_id demo_store (PStr "board")) /\
  is_Some (fetch_user_by_id demo_store (PStr "bob")) /\
  check_user_in_private_room demo_store (PStr "board") (PStr "bob") = false /\
  joining_private_room "s2" data demo_world
    = (Ret tt, demo_world, [Emit "error" (PStr "Access denied") (ToRoom (PStr "s2"))]).
Proof.
  intros data.
  assert (Hroom : is_Some (fetch_private_room_by_id demo_store (PStr "board")))
    by (vm_compute; eauto).
  assert (Huser : is_Some (fetch_user_by_id demo_store (PStr "bob")))
    by (vm_compute; eauto).
  assert (Haccess : check_user_in_private_room demo_store (PStr "board") (PStr "bob") = false)
    by (by vm_compute).
  refine (conj Hroom (conj Huser (conj Haccess _))).
  destruct (joining_private_room_checks "s2" data (PStr "board") (PStr "bob") demo_world)
    as (_ & _ & Hdenied & _); [by vm_compute|by vm_compute|].
  exact (Hdenied Hroom Huser Haccess).
Defined.

(** The same room lets ["alice"], who is on its access list, in. *)
Example joining_private_room_admits_listed_user :
  joining_private_room "s1" (room_event "board" "alice") demo_world
    = (Ret tt, demo_world,
       [EnterRoom "s1" (PStr "board"); Emit "user_joined" (PStr "alice") (ToRoom (PStr "board"))]).
Proof. by vm_compute. Qed.

Lemma send_private_message_unconditional_witness :
  let data := message_event "board" "bob" "hello" in
  let stored := {| message_id := "0"; message_room := PStr "board";
                   message_sender := PStr "bob"; message_visibility := "private";
                   content := PStr "hello" |} in
  check_user_in_private_room demo_store (PStr "board") (PStr "bob") = false /\
  messages (db (world_after (send_private_message "s2" data) demo_world)) = [stored] /\
  trace_of (send_private_message "s2" data) demo_world
    = [Emit "message"
         (PDict {[ "sid" := PStr "s2"; "message" := PStr "hello";
                   "message_id" := PStr "0"; "user_id" := PStr "bob" ]})
         (ToRoom (PStr "board"))].
Proof.
  intros data stored.
  assert (Haccess : check_user_in_private_room demo_store (PStr "board") (PStr "bob") = false)
    by (by vm_compute).
  refine (conj Haccess _).
  unfold world_after, trace_of.
  rewrite (send_private_message_unconditional "s2" data (PStr "board") (PStr "bob")
             (PStr "hello") demo_world false);
    [by vm_compute|by vm_compute|by vm_compute|by vm_compute
    |vm_compute; eauto|vm_compute; eauto|done].
Defined.

(** C6, the claim as stated fails: an upload that declares a total size of
    one byte and sends a chunk of two has both bytes stored. *)
Lemma upload_exceeds_declared_size :
  let e := UploadFile "s1"
             (upload_event "lobby" "alice" "u1" "a.txt" 1 (PBytes [Byte.x68; Byte.x69])) in
  declared_size e = Some 1 /\
  file_bytes (uploads (run [e] demo_world)) "uploads/u1_a.txt" = [Byte.x68; Byte.x69] /\
  ~ (Z.of_nat (length (file_bytes (uploads (run [e] demo_world)) "uploads/u1_a.txt")) <= 1).
Proof. by vm_compute. Qed.

Lemma upload_sink_appends_in_order_witness :
  let e1 := UploadFile "s1"
              (upload_event "lobby" "alice" "u1" "a.txt" 3 (PBytes [Byte.x68; Byte.x69])) in
  let e2 := UploadFile "s1" (upload_event "lobby" "alice" "u1" "a.txt" 3 (PBytes [Byte.x21])) in
  fs_open (upload_path (PStr "u1") (PStr "a.txt")) = inr "uploads/u1_a.txt" /\
  accepted_chunk e2 = Some ("uploads/u1_a.txt", [Byte.x21]) /\
  session_chunks "u1" "a.txt" [e1; e2] = [[Byte.x68; Byte.x69]; [Byte.x21]] /\
  file_bytes (uploads (run [e1; e2] demo_world)) "uploads/u1_a.txt"
    = [Byte.x68; Byte.x69; Byte.x21] /\
  length (file_bytes (uploads (run [e1; e2] demo_world)) "uploads/u1_a.txt")
    = (length (file_bytes (uploads (run [e1] demo_world)) "uploads/u1_a.txt") + 1)%nat.
Proof.
  intros e1 e2.
  assert (Hopen : fs_open (upload_path (PStr "u1") (PStr "a.txt")) = inr "uploads/u1_a.txt")
    by (by vm_compute).
  assert (Hacc : accepted_chunk e2 = Some ("uploads/u1_a.txt", [Byte.x21])) by (by vm_compute).
  assert (Hchunks : session_chunks "u1" "a.txt" [e1; e2] = [[Byte.x68; Byte.x69]; [Byte.x21]])
    by (by vm_compute).
  destruct (upload_sink_appends_in_order "uploads/u1_a.txt" [e1; e2] demo_world)
    as (_ & _ & _ & Hstep & Hsession).
  refine (conj Hopen (conj Hacc (conj Hchunks (conj _ _)))).
  - destruct (Hsession "u1" "a.txt" Hopen) as [Hall _].
    + intros e bs [<-|[<-|[]]] _; by vm_compute.
    + rewrite Hall, Hchunks. by vm_compute.
  - destruct (Hstep e2 (run [e1] demo_world) [Byte.x21] Hacc) as [_ Hlen]. exact Hlen.
Defined.

(** C9, the claim as stated fails: an event with string ids, a dict
    [file_info] and a non-empty bytes chunk whose file name points into a
    directory that does not exist is well formed, yet nothing is appended
    and no [file_uploaded] is sent: opening the path raises. *)
Lemma upload_file_unopenable_path :
  let data := upload_event "lobby" "alice" "u1" "d/a.txt" 2 (PBytes [Byte.x68; Byte.x69]) in
  isinstance_str (dict_get data "room_id") = true /\
  isinstance_str (dict_get data "user_id") = true /\
  isinstance_dict (dict_get data "file_info") = true /\
  truthy (dict_get data "file_chunk") = true /\
  fs_open "uploads/u1_d/a.txt" = inl OSError /\
  upload_file "s1" data demo_world = (Raise OSError, demo_world, []).
Proof. by vm_compute. Qed.

(** Two path texts that name one file: the sessions (id [./a], name [b])
    and (id [a], name [b]) write to the same file. *)
Example upload_alias_paths_share_file :
  let e1 := UploadFile "s1" (upload_event "lobby" "alice" "./a" "b" 1 (PBytes [Byte.x31])) in
  let e2 := UploadFile "s2" (upload_event "lobby" "bob" "a" "b" 1 (PBytes [Byte.x32])) in
  fs_open "uploads/./a_b" = inr "uploads/a_b" /\
  fs_open "uploads/a_b" = inr "uploads/a_b" /\
  file_bytes (uploads (run [e1; e2] demo_world)) "uploads/a_b" = [Byte.x31; Byte.x32].
Proof. by vm_compute. Qed.

Lemma upload_file_validation_witness :
  let good := upload_event "lobby" "alice" "u1" "a.txt" 2 (PBytes [Byte.x68; Byte.x69]) in
  let bad := upload_event "lobby" "alice" "u1" "a.txt" 2 (PBytes []) in
  fs_open "uploads/u1_a.txt" = inr "uploads/u1_a.txt" /\
  upload_file "s1" good demo_world
    = (Ret tt, with_chunk demo_world "uploads/u1_a.txt" [Byte.x68; Byte.x69],
       [Emit "file_uploaded"
          (PDict {[ "file_url" := PStr "uploads/u1_a.txt"; "filename" := PStr "a.txt" ]})
          (ToRoom (PStr "lobby"))]) /\
  uploads (with_chunk demo_world "uploads/u1_a.txt" [Byte.x68; Byte.x69]) !! "uploads/u1_a.txt"
    = Some [Byte.x68; Byte.x69] /\
  upload_file "s1" bad demo_world
    = (Ret tt, demo_world,
       [Emit "error" (PStr "Invalid file_info or file_chunk") (ToRoom (PStr "s1"))]).
Proof.
  intros good bad.
  assert (Hopen : fs_open "uploads/u1_a.txt" = inr "uploads/u1_a.txt") by (by vm_compute).
  destruct (upload_file_validation "s1" good demo_world) as [_ Hgood].
  destruct (upload_file_validation "s1" bad demo_world) as [Hbad _].
  destruct (Hgood {[ "filename" := PStr "a.txt"; "file_size" := PInt 2;
                     "upload_id" := PStr "u1" ]} [Byte.x68; Byte.x69])
    as [Hopened _]; [by vm_compute|by vm_compute|by vm_compute|by vm_compute|done|].
  destruct (Hopened "uploads/u1_a.txt" Hopen) as [Hrun Hnew].
  refine (conj Hopen (conj Hrun (conj (Hnew _) _))).
  - by vm_compute.
  - apply (Hbad (or_intror (or_intror (or_intror eq_refl)))).
Defined.

Lemma private_join_not_counted_witness :
  let data := room_event "lobby" "alice" in
  fst (fst (join_public_room demo_store "lobby" "alice")) = true /\
  room_members_of (world_after (joining_public_room "s1" data) demo_world) "lobby" = 0 + 1 /\
  In (Emit "room_count" (PInt 1) (ToRoom (PStr "lobby")))
     (trace_of (joining_public_room "s1" data) demo_world) /\
  global_state (world_after (joining_private_room "s1" (room_event "board" "alice")) demo_world)
    = global_state demo_world.
Proof.
  intros data.
  destruct private_join_not_counted as [Hprivate Hpublic].
  destruct (join_public_room demo_store "lobby" "alice") as [[joined report] st] eqn:Hjoin.
  assert (Hjoined : joined = true).
  { apply (f_equal (fun x => fst (fst x))) in Hjoin. vm_compute in Hjoin. by rewrite <- Hjoin. }
  subst joined.
  destruct (Hpublic "s1" data "lobby" "alice" report st demo_world) as [Hcount Hemit];
    [by vm_compute|by vm_compute|exact Hjoin|].
  refine (conj eq_refl (conj Hcount (conj _ (proj1 (Hprivate _ _ _))))).
  assert (Hone : room_members_of (world_after (joining_public_room "s1" data) demo_world) "lobby" = 1)
    by (by rewrite Hcount).
  by rewrite Hone in Hemit.
Defined.

(** The run of the spec's scenario after the connection: a public join, a
    message, and the disconnect, which leaves the room counter at 1. *)
Example lobby_scenario :
  let evs := [JoiningPublicRoom "s1" (room_event "lobby" "alice");
              SendPublicMessage "s1" (message_event "lobby" "alice" "hi");
              Disconnected "s1"] in
  run_trace evs demo_world
    = [EnterRoom "s1" (PStr "lobby");
       Emit "room_count" (PInt 1) (ToRoom (PStr "lobby"));
       Emit "user_joined" (PStr "alice") (ToRoom (PStr "lobby"));
       Emit "message"
         (PDict {[ "sid" := PStr "s1"; "message" := PStr "hi"; "user_id" := PStr "alice" ]})
         (ToRoom (PStr "lobby"));
       Emit "client_count" (PInt (-1)) ToAll] /\
  room_members_of (run evs demo_world) "lobby" = 1.
Proof. by vm_compute. Qed.

(** * The REST side *)

Section RestProperties.
Context {Db User : Type}.
Variable jwt_decode : pyval -> option dict.
Variable token_data_schema : pyval -> option Main.TokenDataSchema.
Variable get_user_by_email : Db -> pyval -> option User.

(** The two ways [Main.verify_token] can end without a validation error. *)
Lemma main_verify_token_cases {E} token (exc : E) :
  (Main.verify_token jwt_decode token_data_schema token exc = inl (Main.Supplied exc) <->
     jwt_decode token = None \/
     exists payload, jwt_decode token = Some payload /\ dict_get payload "sub" = PNone) /\
  (forall token_data,
     Main.verify_token jwt_decode token_data_schema token exc = inr token_data <->
     exists payload, jwt_decode token = Some payload /\
                     dict_get payload "sub" <> PNone /\
                     token_data_schema (dict_get payload "sub") = Some token_data).
Proof.
  unfold Main.verify_token. destruct (jwt_decode token) as [payload|].
  - destruct (is_none (dict_get payload "sub")) eqn:Hnone.
    + assert (Hsub : dict_get payload "sub" = PNone)
        by (by destruct (dict_get payload "sub")).
      split; [split; [right; eauto|done]|].
      intros token_data. split; [done|].
      intros (payload' & [= <-] & Hne & _). by destruct Hne.
    + assert (Hsub : dict_get payload "sub" <> PNone)
        by (intros Heq; by rewrite Heq in Hnone).
      destruct (token_data_schema (dict_get payload "sub")) as [td|] eqn:Hschema.
      * split.
        -- split; [done|]. intros [[=]|(payload' & [= <-] & Heq)]. by destruct Hsub.
        -- intros token_data. split.
           ++ intros [= <-]. eauto.
           ++ intros (payload' & [= <-] & _ & Htd). congruence.
      * split.
        -- split; [done|]. intros [[=]|(payload' & [= <-] & Heq)]. by destruct Hsub.
        -- intros token_data. split; [done|].
           intros (payload' & [= <-] & _ & Htd). congruence.
  - split; [split; [by left|done]|].
    intros token_data. split; [done|]. by intros (payload & [=] & _).
Qed.

(** X20: [Main.verify_token] raises the exception its caller supplied
    exactly when the token does not decode or its claims have no subject,
    so a [JWTError] never leaves it; it returns token data exactly when the
    token decodes, has a subject, and the schema accepts the subject. *)
Theorem main_verify_token_outcomes {E} token (exc : E) :
  (Main.verify_token jwt_decode token_data_schema token exc = inl (Main.Supplied exc) <->
     jwt_decode token = None \/
     exists payload, jwt_decode token = Some payload /\ dict_get payload "sub" = PNone) /\
  (forall token_data,
     Main.verify_token jwt_decode token_data_schema token exc = inr token_data <->
     exists payload, jwt_decode token = Some payload /\
                     dict_get payload "sub" <> PNone /\
                     token_data_schema (dict_get payload "sub") = Some token_data).
Proof.
  destruct (main_verify_token_cases token exc) as [Hraises Hreturns].
  split; [exact Hraises|exact Hreturns].
Qed.

Lemma main_verify_token_supplied {E} token (exc e : E) :
  Main.verify_token jwt_decode token_data_schema token exc = inl (Main.Supplied e) -> e = exc.
Proof.
  unfold Main.verify_token. destruct (jwt_decode token) as [payload|]; [|by intros [= <-]].
  destruct (is_none (dict_get payload "sub")); [by intros [= <-]|].
  by destruct (token_data_schema (dict_get payload "sub")).
Qed.

(** X21: [Main.get_current_user] returns a user exactly when the token
    decodes, has a subject the schema accepts, and [get_user_by_email]
    finds that user for the validated address; and whenever it raises an
    HTTP exception, for a bad token, a missing subject or an unknown user
    alike, it is the same 401 "Could not validate credentials" with the
    header [WWW-Authenticate: Bearer]. *)
Theorem main_get_current_user_outcomes token (db : Db) :
  (forall user,
     Main.get_current_user jwt_decode token_data_schema get_user_by_email token db = inr user <->
     exists payload token_data,
       jwt_decode token = Some payload /\
       dict_get payload "sub" <> PNone /\
       token_data_schema (dict_get payload "sub") = Some token_data /\
       get_user_by_email db (Main.email token_data) = Some user) /\
  (forall exc,
     Main.get_current_user jwt_decode token_data_schema get_user_by_email token db
       = inl (Main.Supplied exc) ->
     exc = Main.credentials_exception /\
     Main.status_code exc = 401 /\
     Main.headers exc = [("WWW-Authenticate", "Bearer")]) /\
  (jwt_decode token = None \/
   (exists payload, jwt_decode token = Some payload /\ dict_get payload "sub" = PNone) \/
   (exists payload token_data,
      jwt_decode token = Some payload /\
      token_data_schema (dict_get payload "sub") = Some token_data /\
      dict_get payload "sub" <> PNone /\
      get_user_by_email db (Main.email token_data) = None) ->
   Main.get_current_user jwt_decode token_data_schema get_user_by_email token db
     = inl (Main.Supplied Main.credentials_exception)).
Proof.
  unfold Main.get_current_user.
  pose proof (main_verify_token_cases token Main.credentials_exception) as [Hfail Hok].
  destruct (Main.verify_token jwt_decode token_data_schema token Main.credentials_exception)
    as [exc|td] eqn:Hv.
  - split_and!.
    + intros user. split; [done|].
      intros (payload & td & Hdec & Hsub & Hschema & _).
      assert (Hv' : inl exc = inr td :> Main.raised Main.HTTPException + Main.TokenDataSchema)
        by (apply Hok; eauto).
      done.
    + intros exc' [= ->]. by apply main_verify_token_supplied in Hv as ->.
    + intros [Hdec|[Hsub|(payload & td & Hdec & Hschema & Hsub & _)]].
      * assert (Heq : exc = Main.Supplied Main.credentials_exception)
          by (apply proj2 in Hfail; by injection (Hfail (or_introl Hdec))).
        by rewrite Heq.
      * assert (Heq : exc = Main.Supplied Main.credentials_exception)
          by (apply proj2 in Hfail; by injection (Hfail (or_intror Hsub))).
        by rewrite Heq.
      * assert (Hv' : inl exc = inr td :> Main.raised Main.HTTPException + Main.TokenDataSchema)
          by (apply Hok; eauto).
        done.
  - destruct (proj1 (Hok td) eq_refl) as (payload & Hdec & Hsub & Hschema).
    split_and!.
    + intros user. split.
      * destruct (get_user_by_email db (Main.email td)) as [u|] eqn:Hu; [|done].
        intros [= <-]. eauto 10.
      * intros (payload' & td' & Hdec' & _ & Hschema' & Hu).
        assert (payload' = payload) as -> by congruence.
        assert (td' = td) as -> by congruence.
        by rewrite Hu.
    + intros exc. destruct (get_user_by_email db (Main.email td)); [done|].
      by intros [= <-].
    + intros [Hdec'|[(payload' & Hdec' & Hsub')|(payload' & td' & Hdec' & Hschema' & _ & Hu)]].
      * congruence.
      * assert (payload' = payload) as -> by congruence. by destruct Hsub.
      * assert (payload' = payload) as -> by congruence.
        assert (td' = td) as -> by congruence.
        by rewrite Hu.
Qed.
End RestProperties.

(** * The further properties on concrete inputs *)

Lemma room_events_reject_non_string_ids_witness :
  let data : dict := {[ "room_id" := PInt 7; "user_id" := PStr "alice" ]} in
  let refused := (Ret tt, demo_world,
                  [Emit "error" (PStr "Invalid room_id or user_id") (ToRoom (PStr "s1"))]) in
  isinstance_str (dict_get data "room_id") = false /\
  joining_public_room "s1" data demo_world = refused /\
  leave_room "s1" data demo_world = refused.
Proof.
  intros data refused.
  assert (Hbad : isinstance_str (dict_get data "room_id") = false) by (by vm_compute).
  exact (conj Hbad (room_events_reject_non_string_ids "s1" data demo_world (or_introl Hbad))).
Defined.

Lemma joining_public_room_refused_witness :
  let data := room_event "nowhere" "alice" in
  join_public_room demo_store "nowhere" "alice" = (false, PStr "Room not found", demo_store) /\
  joining_public_room "s1" data demo_world
    = (Ret tt, with_db demo_world demo_store,
       [Emit "error" (PStr "Room not found") (ToRoom (PStr "s1"))]).
Proof.
  intros data.
  assert (Hjoin : join_public_room demo_store "nowhere" "alice"
                  = (false, PStr "Room not found", demo_store)) by (by vm_compute).
  refine (conj Hjoin _).
  apply (joining_public_room_refused "s1" data "nowhere" "alice" (PStr "Room not found")
           demo_store demo_world); [by vm_compute|by vm_compute|exact Hjoin].
Defined.


Lemma join_then_leave_restores_count_witness :
  let w := run [JoiningPublicRoom "s1" (room_event "lobby" "alice")] demo_world in
  room_members_of w "lobby" = 1 /\
  room_members_of (run [JoiningPublicRoom "s2" (room_event "lobby" "bob");
                        LeaveRoomEv "s1" (room_event "lobby" "alice")] w) "lobby" = 1.
Proof.
  intros w.
  assert (Hone : room_members_of w "lobby" = 1) by (by vm_compute).
  refine (conj Hone _).
  destruct (join_public_room (db w) "lobby" "bob") as [[joined report] st] eqn:Hjoin.
  assert (Hjoined : joined = true).
  { apply (f_equal (fun x => fst (fst x))) in Hjoin. vm_compute in Hjoin. by rewrite <- Hjoin. }
  subst joined.
  rewrite (join_then_leave_restores_count "s2" "s1" (room_event "lobby" "bob")
             (room_event "lobby" "alice") "lobby" "bob" "alice" report st w);
    [exact Hone|by vm_compute|by vm_compute|by vm_compute|by vm_compute|exact Hjoin|].
  rewrite Hone. lia.
Defined.

Lemma repeated_leaves_clamp_witness :
  let w := run [JoiningPublicRoom "s1" (room_event "lobby" "alice")] demo_world in
  let leave := LeaveRoomEv "s1" (room_event "lobby" "alice") in
  room_members_of w "lobby" = 1 /\
  room_members_of (run [leave; leave; leave] w) "lobby" = 0.
Proof.
  intros w leave.
  assert (Hone : room_members_of w "lobby" = 1) by (by vm_compute).
  refine (conj Hone _).
  rewrite (repeated_leaves_clamp "lobby" [leave; leave; leave] w).
  - rewrite Hone. by vm_compute.
  - repeat constructor.
  - rewrite Hone. lia.
Defined.

Lemma joins_are_not_deduplicated_witness :
  let join := JoiningPublicRoom "s1" (room_event "lobby" "alice") in
  leaves "lobby" [join; join] = 0 /\
  room_members_of (run [join; join] demo_world) "lobby" = 2.
Proof.
  intros join.
  assert (Hnone : leaves "lobby" [join; join] = 0) by (by vm_compute).
  refine (conj Hnone _).
  rewrite (joins_are_not_deduplicated "lobby" [join; join] demo_world Hnone).
  by vm_compute.
Defined.

Lemma room_counter_frame_witness :
  let w := run [JoiningPublicRoom "s1" (room_event "lobby" "alice")] demo_world in
  room_members_of (world_after (leave_room "s1" (room_event "hall" "alice")) w) "lobby" = 1 /\
  rooms_client_count
    (global_state (world_after (handle (UploadFile "s1" (room_event "lobby" "alice"))) w))
    = rooms_client_count (global_state w).
Proof.
  intros w. destruct (room_counter_frame (Store := MemStore)) as [Hother Hroom].
  split.
  - destruct (Hroom "s1" (room_event "hall" "alice") "hall" "lobby" w) as [_ Hleave];
      [by vm_compute|done|].
    rewrite Hleave. by vm_compute.
  - by apply Hother.
Defined.


Lemma send_private_message_not_found_witness :
  send_private_message "s1" (message_event "nowhere" "alice" "hi") demo_world
    = (Ret tt, demo_world,
       [Emit "error" (PDict {[ "error" := PStr "Room not found" ]}) (ToRoom (PStr "s1"))]) /\
  send_private_message "s1" (message_event "board" "mallory" "hi") demo_world
    = (Ret tt, demo_world,
       [Emit "error" (PDict {[ "error" := PStr "Users not found" ]}) (ToRoom (PStr "s1"))]).
Proof.
  split.
  - apply (send_private_message_not_found "s1" (message_event "nowhere" "alice" "hi")
             (PStr "nowhere") (PStr "alice") (PStr "hi") demo_world); by vm_compute.
  - apply (send_private_message_not_found "s1" (message_event "board" "mallory" "hi")
             (PStr "board") (PStr "mallory") (PStr "hi") demo_world);
      try by vm_compute.
    vm_compute. eauto.
Defined.

Lemma missing_payload_key_raises_witness :
  let data : dict := {[ "room_id" := PStr "lobby"; "user_id" := PStr "alice" ]} in
  first_missing data ["room_id"; "message"; "user_id"] = Some "message" /\
  send_public_message "s1" data demo_world = (Raise (KeyError "message"), demo_world, []) /\
  send_private_message "s1" data demo_world = (Raise (KeyError "message"), demo_world, []).
Proof.
  intros data.
  destruct (missing_payload_key_raises "s1" data "message" demo_world)
    as (_ & Hpublic & Hprivate).
  refine (conj eq_refl (conj (Hpublic _) (Hprivate _))); by vm_compute.
Defined.

Lemma upload_file_non_bytes_chunk_witness :
  let data := upload_event "lobby" "alice" "u1" "a.txt" 5 (PStr "hello") in
  fs_open "uploads/u1_a.txt" = inr "uploads/u1_a.txt" /\
  result_of (upload_file "s1" data) demo_world = Raise TypeError /\
  trace_of (upload_file "s1" data) demo_world = [] /\
  uploads (world_after (upload_file "s1" data) demo_world) !! "uploads/u1_a.txt" = Some [].
Proof.
  intros data.
  assert (Hopen : fs_open "uploads/u1_a.txt" = inr "uploads/u1_a.txt") by (by vm_compute).
  destruct (upload_file_non_bytes_chunk "s1" data
              {[ "filename" := PStr "a.txt"; "file_size" := PInt 5; "upload_id" := PStr "u1" ]}
              demo_world) as [Hopened _];
    [by vm_compute|by vm_compute|by vm_compute|by vm_compute|by vm_compute|].
  destruct (Hopened "uploads/u1_a.txt" Hopen) as (Hraise & Htrace & _ & Hfile).
  refine (conj Hopen (conj Hraise (conj Htrace (Hfile _)))). by vm_compute.
Defined.

Lemma upload_sessions_share_path_witness :
  let e1 := UploadFile "s1" (upload_event "lobby" "alice" "a_b" "c" 1 (PBytes [Byte.x31])) in
  let e2 := UploadFile "s2" (upload_event "lobby" "bob" "a" "b_c" 1 (PBytes [Byte.x32])) in
  upload_path (PStr "a_b") (PStr "c") = upload_path (PStr "a") (PStr "b_c") /\
  file_bytes (uploads (run [e1; e2] demo_world)) "uploads/a_b_c" = [Byte.x31; Byte.x32].
Proof.
  intros e1 e2. split; [|by vm_compute].
  apply (upload_sessions_share_path (Store := MemStore) "a" "b" "c"). by intros s.
Defined.

Lemma files_and_store_frame_witness :
  let e := LeaveRoomEv "s1" (room_event "lobby" "alice") in
  uploads (world_after (handle e) demo_world) = uploads demo_world /\
  db (world_after (handle e) demo_world) = db demo_world.
Proof.
  intros e. destruct (files_and_store_frame e demo_world) as [Hfiles Hstore].
  split; [by apply Hfiles|by apply Hstore].
Defined.


Lemma main_get_current_user_outcomes_witness :
  Main.get_current_user mem_jwt_decode accept_any_email (fun db => by_id db)
    (PStr "token:alice@example.org") demo_users_by_email = inr alice /\
  Main.get_current_user mem_jwt_decode accept_any_email (fun db => by_id db)
    (PStr "token:mallory@example.org") demo_users_by_email
    = inl (Main.Supplied Main.credentials_exception) /\
  Main.get_current_user mem_jwt_decode accept_any_email (fun db => by_id db)
    (PStr "garbage") demo_users_by_email
    = inl (Main.Supplied Main.credentials_exception).
Proof.
  split_and!.
  - apply (main_get_current_user_outcomes mem_jwt_decode accept_any_email
             (fun db => by_id db) (PStr "token:alice@example.org") demo_users_by_email).
    exists {[ "sub" := PStr "alice@example.org" ]}, {| Main.email := PStr "alice@example.org" |}.
    by vm_compute.
  - apply (main_get_current_user_outcomes mem_jwt_decode accept_any_email
             (fun db => by_id db) (PStr "token:mallory@example.org") demo_users_by_email).
    right. right.
    exists {[ "sub" := PStr "mallory@example.org" ]}, {| Main.email := PStr "mallory@example.org" |}.
    by vm_compute.
  - apply (main_get_current_user_outcomes mem_jwt_decode accept_any_email
             (fun db => by_id db) (PStr "garbage") demo_users_by_email).
    left. by vm_compute.
Defined.

Lemma main_verify_token_outcomes_witness :
  Main.verify_token mem_jwt_decode accept_any_email (PStr "token-without-sub") 401
    = inl (Main.Supplied 401) /\
  Main.verify_token mem_jwt_decode accept_any_email (PStr "token:alice@example.org") 401
    = inr {| Main.email := PStr "alice@example.org" |}.
Proof.
  split.
  - apply (main_verify_token_outcomes mem_jwt_decode accept_any_email
             (PStr "token-without-sub") 401).
    right. exists ∅. by vm_compute.
  - apply (main_verify_token_outcomes mem_jwt_decode accept_any_email
             (PStr "token:alice@example.org") 401).
    exists {[ "sub" := PStr "alice@example.org" ]}. by vm_compute.
Defined.

Lemma errors_go_to_the_sender_only_witness :
  trace_of (handle (JoiningPrivateRoom "s2" (room_event "board" "bob"))) demo_world
    = [Emit "error" (PStr "Access denied") (ToRoom (PStr "s2"))] /\
  Forall (fun a => forall payload tgt, a = Emit "error" payload tgt -> tgt = ToRoom (PStr "s2"))
         (trace_of (handle (JoiningPrivateRoom "s2" (room_event "board" "bob"))) demo_world).
Proof.
  split; [by vm_compute|].
  apply (errors_go_to_the_sender_only (JoiningPrivateRoom "s2" (room_event "board" "bob"))
           demo_world).
Defined.

Lemma room_count_events_never_negative_witness :
  let evs := [LeaveRoomEv "s1" (room_event "lobby" "alice");
              JoiningPublicRoom "s1" (room_event "lobby" "alice");
              LeaveRoomEv "s1" (room_event "lobby" "alice");
              LeaveRoomEv "s1" (room_event "lobby" "alice")] in
  Forall (fun a => forall v tgt, a = Emit "room_count" v tgt -> exists n, v = PInt n /\ 0 <= n)
         (run_trace evs demo_world).
Proof.
  intros evs. apply (room_count_events_never_negative evs demo_store).
Defined.

Lemma only_client_count_goes_to_all_witness :
  Forall (fun a => forall name payload, a = Emit name payload ToAll -> name = "client_count")
         (trace_of (handle (Disconnected "s1")) demo_world).
Proof. apply (only_client_count_goes_to_all (Disconnected "s1") demo_world). Defined.
